(** * swiftocr: the OCR result model and its query engine

    A shallow embedding of [swiftocr.py]: the bounding box, the single
    result ([OCRResult]), the result list ([OCRResults]) with its
    filters, its indexing and its ranked search.

    Python values are modelled as follows.
    - [int] is [Z] (unbounded).
    - [float] is an IEEE 754 value without NaN payload ([spec_float]);
      comparisons are the IEEE ones, so every comparison with NaN is
      false and the two zeros are equal.
    - [str] is [string]; [str.lower] is a parameter of the development.
    - an exception is a value of [exception], and code that can raise
      returns a [result].
    - [re.match] is a parameter of the development with three outcomes:
      a match object, [None], or [re.error] when the pattern does not
      compile. *)

From Stdlib Require Import ZArith List Bool Lia String Ascii.
From Stdlib Require Import Floats.SpecFloat.
From Stdlib Require Import Sorting.Sorted Sorting.Permutation.
Import ListNotations.
Open Scope Z_scope.

(** ** Floats *)

Definition float := spec_float.

Definition is_nan (f : float) : bool :=
  match f with S754_nan => true | _ => false end.

Definition is_zero (f : float) : bool :=
  match f with S754_zero _ => true | _ => false end.

(** [a == b] *)
Definition float_eq (a b : float) : bool := SFeqb a b.

(** [a < b] *)
Definition float_lt (a b : float) : bool := SFltb a b.

(** [a <= b] *)
Definition float_le (a b : float) : bool := SFleb a b.

(** [a >= b] *)
Definition float_ge (a b : float) : bool :=
  match SFcompare a b with
  | Some Gt | Some Eq => true
  | _ => false
  end.

(** [-a] *)
Definition float_neg (a : float) : float := SFopp a.

(** Position of a number on the extended real line, as a triple of
    integers compared lexicographically.  Only used in proofs. *)
Definition float_rank (f : float) : Z * Z * Z :=
  match f with
  | S754_nan => (0, 0, 0)
  | S754_zero _ => (0, 0, 0)
  | S754_infinity s => (if s then -2 else 2, 0, 0)
  | S754_finite s m e => if s then (-1, - e, - Zpos m) else (1, e, Zpos m)
  end.

Definition lex3_lt (a b : Z * Z * Z) : Prop :=
  let '(a1, a2, a3) := a in
  let '(b1, b2, b3) := b in
  a1 < b1 \/ (a1 = b1 /\ (a2 < b2 \/ (a2 = b2 /\ a3 < b3))).

(** The binary64 values used in the examples. *)
Definition f_half : float := S754_finite false 4503599627370496 (-53).
Definition f_one : float := S754_finite false 4503599627370496 (-52).
Definition f_zero : float := S754_zero false.
Definition f_neg_zero : float := S754_zero true.

(** ** Strings *)

(** [needle in hay] for two [str]. *)
Fixpoint str_contains (needle hay : string) : bool :=
  if String.prefix needle hay then true
  else match hay with
       | EmptyString => false
       | String _ hay' => str_contains needle hay'
       end.

(** Lower-casing of the ASCII letters, an instance of [str.lower] on
    ASCII text. *)
Definition ascii_lower (c : ascii) : ascii :=
  let n := nat_of_ascii c in
  if (Nat.leb 65 n && Nat.leb n 90)%bool then ascii_of_nat (n + 32) else c.

Fixpoint lower_ascii (s : string) : string :=
  match s with
  | EmptyString => EmptyString
  | String c s' => String (ascii_lower c) (lower_ascii s')
  end.

(** ** Regular expressions *)

(** What a call [re.match(pattern, string, flags)] does: it returns a
    match object, returns [None], or raises [re.error] because
    [pattern] is not a regular expression. *)
Inductive re_outcome : Type :=
  | re_Match
  | re_None
  | re_error.

(** Truth value of the returned object in an [if]. *)
Definition re_truthy (o : re_outcome) : bool :=
  match o with re_Match => true | _ => false end.

(** The special characters of the regular expression syntax. *)
Definition re_special (c : ascii) : bool :=
  existsb (Ascii.eqb c)
    ["."; "^"; "$"; "*"; "+"; "?"; "{"; "}"; "["; "]"; "\"; "|"; "("; ")"]%char.

Fixpoint re_all_ordinary (p : string) : bool :=
  match p with
  | EmptyString => true
  | String c p' => negb (re_special c) && re_all_ordinary p'
  end.

(** [re.match] on the patterns without special characters, with no
    flag set: such a pattern matches when the subject starts with it.
    This instance knows no operator of the syntax and answers
    [re_error] for a pattern that holds a special character; that is
    what [re.match] does for the pattern of one opening parenthesis,
    the only such pattern evaluated below. *)
Definition re_match_literal (pattern subject : string) (flags : Z)
  : re_outcome :=
  if re_all_ordinary pattern then
    if String.prefix pattern subject then re_Match else re_None
  else re_error.

(** ** Exceptions *)

Inductive exception : Type :=
  | IndexError
  | TypeError (msg : string)
  | ValueError
  | ReError.

Inductive result (A : Type) : Type :=
  | Ok (a : A)
  | Raise (e : exception).

Arguments Ok {A} a.
Arguments Raise {A} e.

Definition bind {A B : Type} (r : result A) (k : A -> result B) : result B :=
  match r with
  | Ok a => k a
  | Raise e => Raise e
  end.

(** A list comprehension [[a for a in l if cond(a)]] whose condition
    can raise: the first exception ends the comprehension. *)
Fixpoint filter_raising {A : Type} (cond : A -> result bool) (l : list A)
  : result (list A) :=
  match l with
  | [] => Ok []
  | a :: l' =>
      bind (cond a) (fun b =>
      bind (filter_raising cond l') (fun r =>
      Ok (if b then a :: r else r)))
  end.

(** ** Lists: indexing, slicing, sorting *)

(** [l[i]] for an [int] [i]: a negative index counts from the end. *)
Definition list_getitem {A : Type} (l : list A) (i : Z) : result A :=
  let n := Z.of_nat (List.length l) in
  let j := if i <? 0 then i + n else i in
  if (j <? 0) || (n <=? j) then Raise IndexError
  else match nth_error l (Z.to_nat j) with
       | Some a => Ok a
       | None => Raise IndexError
       end.

(** The bounds a slice object selects in a sequence of length [len]
    ([slice.indices]). *)
Definition slice_indices (start stop step : option Z) (len : Z)
  : result (Z * Z * Z) :=
  let st := match step with None => 1 | Some s => s end in
  if st =? 0 then Raise ValueError
  else
    let lower := if st <? 0 then -1 else 0 in
    let upper := if st <? 0 then len - 1 else len in
    let clamp v := if v <? 0 then Z.max (v + len) lower else Z.min v upper in
    let s := match start with
             | None => if st <? 0 then upper else lower
             | Some v => clamp v
             end in
    let e := match stop with
             | None => if st <? 0 then lower else upper
             | Some v => clamp v
             end in
    Ok (s, e, st).

Definition slice_length (s e st : Z) : Z :=
  if st <? 0 then (if e <? s then (s - e - 1) / (- st) + 1 else 0)
  else (if s <? e then (e - s - 1) / st + 1 else 0).

(** [l[start:stop:step]] *)
Definition list_getslice {A : Type} (l : list A) (start stop step : option Z)
  : result (list A) :=
  bind (slice_indices start stop step (Z.of_nat (List.length l)))
    (fun '(s, e, st) =>
       Ok (flat_map
             (fun k => match nth_error l (Z.to_nat (s + Z.of_nat k * st)) with
                       | Some a => [a]
                       | None => []
                       end)
             (seq 0 (Z.to_nat (slice_length s e st))))).

(** [sorted(l, key=key)]: a stable sort that compares keys with [<]
    alone.  It is modelled by stable insertion: where [<] orders the
    keys, the ordered arrangement that keeps equal keys in place is
    unique ([sorted_unique]), so every stable sort returns this list. *)
Section Sorted.
Context {A K : Type}.
Variable lt : K -> K -> bool.
Variable key : A -> K.

Fixpoint insert_sorted (x : A) (l : list A) : list A :=
  match l with
  | [] => [x]
  | y :: l' => if lt (key y) (key x) then y :: insert_sorted x l'
               else x :: l
  end.

Fixpoint sorted (l : list A) : list A :=
  match l with
  | [] => []
  | x :: l' => insert_sorted x (sorted l')
  end.

End Sorted.

(** [a < b] for the 4-tuples used as sort key: the first position where
    the tuples differ under [==] decides with [<]. *)
Definition tuple_lt (a b : float * Z * Z * float) : bool :=
  let '(a0, a1, a2, a3) := a in
  let '(b0, b1, b2, b3) := b in
  if negb (float_eq a0 b0) then float_lt a0 b0
  else if negb (a1 =? b1) then a1 <? b1
  else if negb (a2 =? b2) then a2 <? b2
  else if negb (float_eq a3 b3) then float_lt a3 b3
  else false.

(** ** The records received from the recognizer *)

Module BoundingBoxDict.
Record t : Type := mk { x : Z; y : Z; width : Z; height : Z }.

(** [==] of two such dictionaries *)
Definition eq (a b : t) : bool :=
  (x a =? x b) && (y a =? y b) && (width a =? width b)
  && (height a =? height b).
End BoundingBoxDict.

Module OCRResultDict.
Record t : Type :=
  mk { text : string; confidence : float; boundingBox : BoundingBoxDict.t }.

(** [==] of two such dictionaries.  Python tests two values of a dict
    with [is] before [==]; the two tests differ only where one NaN
    object stands on both sides, so this is the [==] of Python wherever
    a confidence is a number. *)
Definition eq (a b : t) : bool :=
  (text a =? text b)%string && float_eq (confidence a) (confidence b)
  && BoundingBoxDict.eq (boundingBox a) (boundingBox b).
End OCRResultDict.

(** ** class BoundingBox *)

Module BoundingBox.
Record t : Type := mk { x : Z; y : Z; width : Z; height : Z }.

Definition center (self : t) : Z * Z :=
  (x self + width self / 2, y self + height self / 2).
Definition top_left (self : t) : Z * Z := (x self, y self).
Definition top_right (self : t) : Z * Z := (x self + width self, y self).
Definition bottom_left (self : t) : Z * Z := (x self, y self + height self).
Definition bottom_right (self : t) : Z * Z :=
  (x self + width self, y self + height self).
Definition diagonal (self : t) : Z * Z * Z * Z :=
  (x self, y self, x self + width self, y self + height self).
End BoundingBox.

(** ** class OCRResult *)

Module OCRResult.
Record t : Type :=
  mk { text : string; confidence : float; bounding_box : BoundingBox.t }.

Definition data (self : t) : OCRResultDict.t :=
  OCRResultDict.mk (text self) (confidence self)
    (BoundingBoxDict.mk (BoundingBox.x (bounding_box self))
       (BoundingBox.y (bounding_box self))
       (BoundingBox.width (bounding_box self))
       (BoundingBox.height (bounding_box self))).

(** The right operand of [==]. *)
Inductive operand : Type :=
  | a_str (s : string)
  | an_OCRResult (r : t)
  | another.

Definition __eq__ (self : t) (other : operand) : bool :=
  match other with
  | a_str s => (text self =? s)%string
  | an_OCRResult r => OCRResultDict.eq (data self) (data r)
  | another => false
  end.
End OCRResult.

(** ** class OCRResults *)

Module OCRResults.

Record t : Type :=
  mk { data : list OCRResultDict.t; items : list OCRResult.t }.

(** The [OCRResult(...)] built from one record in [__init__]. *)
Definition item_of (item : OCRResultDict.t) : OCRResult.t :=
  OCRResult.mk (OCRResultDict.text item) (OCRResultDict.confidence item)
    (BoundingBox.mk
       (BoundingBoxDict.x (OCRResultDict.boundingBox item))
       (BoundingBoxDict.y (OCRResultDict.boundingBox item))
       (BoundingBoxDict.width (OCRResultDict.boundingBox item))
       (BoundingBoxDict.height (OCRResultDict.boundingBox item))).

Definition __init__ (data : list OCRResultDict.t) : t :=
  mk data (map item_of data).

Definition __bool__ (self : t) : bool :=
  match items self with [] => false | _ => true end.

(** The key of [self[key]]: an [int], a [slice] of integers or [None],
    or an object of another type, given by the name of its type. *)
Inductive key : Type :=
  | an_int (i : Z)
  | a_slice (start stop step : option Z)
  | an_object (type_name : string).

(** What [self[key]] returns. *)
Inductive item_or_results : Type :=
  | one (r : OCRResult.t)
  | several (rs : t).

Definition __getitem__ (self : t) (k : key) : result item_or_results :=
  match k with
  | an_int i => bind (list_getitem (items self) i) (fun r => Ok (one r))
  | a_slice start stop step =>
      bind (list_getslice (data self) start stop step)
        (fun d => Ok (several (__init__ d)))
  | an_object type_name =>
      Raise (TypeError ("Invalid argument type: " ++ type_name))
  end.

Definition __iter__ (self : t) : list OCRResult.t := items self.

Definition __len__ (self : t) : Z := Z.of_nat (List.length (items self)).

Definition __contains__ (self : t) (text : string) : bool :=
  existsb (fun item => str_contains text (OCRResult.text item)) (items self).

Definition empty (self : t) : bool :=
  match items self with [] => true | _ => false end.

Definition exists_ (self : t) : bool :=
  match items self with [] => false | _ => true end.

Definition text (self : t) : list string := map OCRResult.text (items self).

Definition minimum_confidence (self : t) (threshold : float) : t :=
  __init__
    (filter (fun item => float_ge (OCRResultDict.confidence item) threshold)
       (data self)).

Definition within (self : t) (x y width height : Z) : t :=
  __init__
    (filter
       (fun item =>
          (x <=? BoundingBoxDict.x (OCRResultDict.boundingBox item))
          && (y <=? BoundingBoxDict.y (OCRResultDict.boundingBox item))
          && (x + width >=?
              BoundingBoxDict.x (OCRResultDict.boundingBox item)
              + BoundingBoxDict.width (OCRResultDict.boundingBox item))
          && (y + height >=?
              BoundingBoxDict.y (OCRResultDict.boundingBox item)
              + BoundingBoxDict.height (OCRResultDict.boundingBox item)))
       (data self)).

Definition filter (self : t) (func : OCRResultDict.t -> bool) : t :=
  __init__ (List.filter (fun item => func item) (data self)).

Definition first (self : t) : result (option OCRResult.t) :=
  if __bool__ self
  then bind (list_getitem (items self) 0) (fun r => Ok (Some r))
  else Ok None.

Definition last (self : t) : result (option OCRResult.t) :=
  if __bool__ self
  then bind (list_getitem (items self) (-1)) (fun r => Ok (Some r))
  else Ok None.

Section Text.

(** [str.lower] *)
Variable str_lower : string -> string.

(** [re.match] *)
Variable re_match : string -> string -> Z -> re_outcome.

Definition containing (self : t) (text : string) (lowercase : bool) : t :=
  if lowercase then
    __init__
      (List.filter
         (fun item =>
            str_contains (str_lower text)
              (str_lower (OCRResultDict.text item)))
         (data self))
  else
    __init__
      (List.filter
         (fun item => str_contains text (OCRResultDict.text item))
         (data self)).

Definition exactly (self : t) (text : string) (lowercase : bool) : t :=
  if lowercase then
    __init__
      (List.filter
         (fun item =>
            (str_lower text =? str_lower (OCRResultDict.text item))%string)
         (data self))
  else
    __init__
      (List.filter
         (fun item => (text =? OCRResultDict.text item)%string)
         (data self)).

(** The condition of the comprehension in [matching]: the call
    [re.match(item["text"], pattern, flag)] and the truth value of what
    it returns. *)
Definition matching_cond (pattern : string) (flag : Z)
  (item : OCRResultDict.t) : result bool :=
  match re_match (OCRResultDict.text item) pattern flag with
  | re_error => Raise ReError
  | o => Ok (re_truthy o)
  end.

Definition matching (self : t) (pattern : string) (flag : Z) : result t :=
  bind (filter_raising (matching_cond pattern flag) (data self))
    (fun d => Ok (__init__ d)).

(** The key of the sort in [_search_and_score]. *)
Definition sort_key (x : float * OCRResultDict.t) : float * Z * Z * float :=
  (float_neg (fst x),
   BoundingBoxDict.x (OCRResultDict.boundingBox (snd x)),
   BoundingBoxDict.y (OCRResultDict.boundingBox (snd x)),
   OCRResultDict.confidence (snd x)).

Definition _search_and_score (self : t) (query : string) (threshold : float)
  (lowercase : bool) (score_func : string -> string -> float)
  : list (float * OCRResultDict.t) :=
  let query := if lowercase then str_lower query else query in
  let query := if lowercase then str_lower query else query in
  let matches :=
    fold_left
      (fun matches d =>
         let target := if lowercase then str_lower (OCRResultDict.text d)
                       else OCRResultDict.text d in
         let score := score_func query target in
         if float_ge score threshold then matches ++ [(score, d)]
         else matches)
      (data self) [] in
  sorted tuple_lt sort_key matches.

Definition search (self : t) (query : string) (threshold : float)
  (lowercase : bool) (score_func : string -> string -> float) : t :=
  let results := _search_and_score self query threshold lowercase score_func in
  __init__ (map snd results).

Definition search_and_score (self : t) (query : string) (threshold : float)
  (lowercase : bool) (score_func : string -> string -> float)
  : list (float * OCRResult.t) :=
  let results := _search_and_score self query threshold lowercase score_func in
  let scores := map fst results in
  let ocr := __init__ (map snd results) in
  combine scores (__iter__ ocr).

End Text.

End OCRResults.

(** ** Notions used to state the properties *)

Definition lex3_eq (a b : Z * Z * Z) : Prop :=
  let '(a1, a2, a3) := a in
  let '(b1, b2, b3) := b in
  a1 = b1 /\ a2 = b2 /\ a3 = b3.

(** Strict lexicographic order on integer sequences of one length. *)
Fixpoint lex_lt (a b : list Z) : Prop :=
  match a, b with
  | u :: a', v :: b' => u < v \/ (u = v /\ lex_lt a' b')
  | _, _ => False
  end.

(** A sort key as a sequence of eight integers. *)
Definition key_code (k : float * Z * Z * float) : list Z :=
  let '(k0, k1, k2, k3) := k in
  let '(r1, r2, r3) := float_rank k0 in
  let '(s1, s2, s3) := float_rank k3 in
  [r1; r2; r3; k1; k2; s1; s2; s3].

(** The keys whose two floats are numbers. *)
Definition key_ok (k : float * Z * Z * float) : Prop :=
  let '(k0, _, _, k3) := k in is_nan k0 = false /\ is_nan k3 = false.

(** [s] is [l] with some elements left out, the others in place. *)
Inductive Subseq {A : Type} : list A -> list A -> Prop :=
  | Subseq_nil : Subseq [] []
  | Subseq_keep a s l : Subseq s l -> Subseq (a :: s) (a :: l)
  | Subseq_drop a s l : Subseq s l -> Subseq s (a :: l).

(** [r] is [l] restricted to the elements that satisfy [p]: [r] keeps
    the order of [l], holds only elements that satisfy [p], and every
    selection of such elements of [l] is within [r]. *)
Definition restriction {A : Type} (p : A -> bool) (l r : list A) : Prop :=
  Subseq r l
  /\ Forall (fun a => p a = true) r
  /\ forall s, Subseq s l -> Forall (fun a => p a = true) s -> Subseq s r.

(** A bound of the slice [lo:hi] in a sequence of length [len]: a
    negative bound counts from the end, and bounds are cut to the
    sequence. *)
Definition slice_bound (len : Z) (v : option Z) (default : Z) : Z :=
  match v with
  | None => default
  | Some v => if v <? 0 then Z.max (v + len) 0 else Z.min v len
  end.

(** The rectangle [(x, y, width, height)] encloses the box [q]. *)
Definition encloses (x y width height : Z) (q : BoundingBoxDict.t) : Prop :=
  x <= BoundingBoxDict.x q
  /\ y <= BoundingBoxDict.y q
  /\ x + width >= BoundingBoxDict.x q + BoundingBoxDict.width q
  /\ y + height >= BoundingBoxDict.y q + BoundingBoxDict.height q.

(** [p] may stand before [q] in a ranking: a higher score first, then
    the smaller [x], then the smaller [y], then the smaller
    confidence. *)
Definition ranked (p q : float * OCRResult.t) : Prop :=
  let bp := OCRResult.bounding_box (snd p) in
  let bq := OCRResult.bounding_box (snd q) in
  float_lt (fst q) (fst p) = true
  \/ (float_eq (fst p) (fst q) = true
      /\ (BoundingBox.x bp < BoundingBox.x bq
          \/ (BoundingBox.x bp = BoundingBox.x bq
              /\ (BoundingBox.y bp < BoundingBox.y bq
                  \/ (BoundingBox.y bp = BoundingBox.y bq
                      /\ float_le (OCRResult.confidence (snd p))
                           (OCRResult.confidence (snd q)) = true))))).

(** The score [_search_and_score] computes for a record of text
    [text]. *)
Definition score_of (str_lower : string -> string) (query : string)
  (lowercase : bool) (score_func : string -> string -> float)
  (text : string) : float :=
  if lowercase
  then score_func (str_lower (str_lower query)) (str_lower text)
  else score_func query text.

(** [matching] as the specification words it: the pattern is applied
    to the text of each fragment. *)
Definition matching_as_specified
  (re_match : string -> string -> Z -> re_outcome)
  (self : OCRResults.t) (pattern : string) (flag : Z)
  : list OCRResultDict.t :=
  List.filter
    (fun item => re_truthy (re_match pattern (OCRResultDict.text item) flag))
    (OCRResults.data self).

(** The records of the examples. *)
Definition record (text : string) (confidence : float) (x y w h : Z)
  : OCRResultDict.t :=
  OCRResultDict.mk text confidence (BoundingBoxDict.mk x y w h).

(** The collection of the ranking example: two fragments [cat], at
    [x = 50] and at [x = 10], and a fragment [bat] at [x = 0], all of
    confidence 0.5. *)
Definition cats : OCRResults.t :=
  OCRResults.__init__
    [record "cat" f_half 50 0 10 10;
     record "cat" f_half 10 0 10 10;
     record "bat" f_half 0 0 10 10].

(** A score function for the examples: 1.0 for equal strings, 0.5
    otherwise. *)
Definition score_equal (query target : string) : float :=
  if (query =? target)%string then f_one else f_half.

(** A fragment for the examples. *)
Definition hello : OCRResult.t :=
  OCRResult.mk "hello" f_half (BoundingBox.mk 3 4 20 10).

(** ** _parse_args *)

(** [sep.join(l)] *)
Fixpoint str_join (sep : string) (l : list string) : string :=
  match l with
  | [] => EmptyString
  | [s] => s
  | s :: l' => (s ++ sep ++ str_join sep l')%string
  end.

(** The options dictionary: the five keys of [OCROptions], each present
    or not, and the presence of the two hyphenated keys that
    [_parse_args] tests and never reads. *)
Module OCROptions.
Record t : Type :=
  mk { fast : option bool;
       languages : option (list string);
       correction : option bool;
       custom_words : option (list string);
       custom_words_file : option string;
       has_custom_words_hyphen : bool;
       has_custom_words_file_hyphen : bool }.

(** The empty dictionary. *)
Definition none : t := mk None None None None None false false.

(** [options.get(key)] as a condition, for a key that holds a [bool]. *)
Definition get_truthy (v : option bool) : bool :=
  match v with Some b => b | None => false end.

(** [key in options] *)
Definition has {A : Type} (v : option A) : bool :=
  match v with Some _ => true | None => false end.
End OCROptions.

(** What [_parse_args] does: it returns the arguments, or a subscript
    [options[key]] raises [KeyError]. *)
Inductive parsed_args : Type :=
  | arguments (args : list string)
  | KeyError (key : string).

(** The rest of the function after a step that can raise. *)
Definition and_then (r : parsed_args) (k : list string -> parsed_args)
  : parsed_args :=
  match r with
  | arguments args => k args
  | KeyError key => KeyError key
  end.

(** [options[key]] *)
Definition subscript {A : Type} (key : string) (v : option A)
  (k : A -> parsed_args) : parsed_args :=
  match v with
  | Some a => k a
  | None => KeyError key
  end.

Definition _parse_args (options : OCROptions.t) : parsed_args :=
  let args := [] in
  let args :=
    if OCROptions.get_truthy (OCROptions.fast options)
    then args ++ ["--fast"%string] else args in
  let args :=
    match OCROptions.languages options with
    | Some l => args ++ ["--languages"%string; str_join "," l]
    | None => args
    end in
  let args :=
    if OCROptions.get_truthy (OCROptions.correction options)
    then args ++ ["--correction"%string] else args in
  and_then
    (if OCROptions.has (OCROptions.custom_words options)
        || OCROptions.has_custom_words_hyphen options
     then subscript "custom_words" (OCROptions.custom_words options)
            (fun l =>
               arguments (args ++ ["--custom-words"%string; str_join "," l]))
     else arguments args)
    (fun args =>
       if OCROptions.has (OCROptions.custom_words_file options)
          || OCROptions.has_custom_words_file_hyphen options
       then subscript "custom_words_file"
              (OCROptions.custom_words_file options)
              (fun f => arguments (args ++ ["--custom-words-file"%string; f]))
       else arguments args).

(** The same options without the hyphenated keys. *)
Definition without_hyphenated (options : OCROptions.t) : OCROptions.t :=
  OCROptions.mk (OCROptions.fast options) (OCROptions.languages options)
    (OCROptions.correction options) (OCROptions.custom_words options)
    (OCROptions.custom_words_file options) false false.

(** The condition of [within] as a function on records. *)
Definition within_cond (x y width height : Z) (d : OCRResultDict.t) : bool :=
  let b := OCRResultDict.boundingBox d in
  (x <=? BoundingBoxDict.x b) && (y <=? BoundingBoxDict.y b)
  && (x + width >=? BoundingBoxDict.x b + BoundingBoxDict.width b)
  && (y + height >=? BoundingBoxDict.y b + BoundingBoxDict.height b).

(** The two views of a collection are in step. *)
Definition in_step (self : OCRResults.t) : Prop :=
  OCRResults.items self = map OCRResults.item_of (OCRResults.data self).

(** [r] selects items of [c]: its two views are in step, its items are
    items of [c] in their order, and it is no longer than [c]. *)
Definition selects (c r : OCRResults.t) : Prop :=
  in_step r
  /\ Subseq (OCRResults.items r) (OCRResults.items c)
  /\ OCRResults.__len__ r <= OCRResults.__len__ c.

(** [a] ties with [k] in the sort of [_search_and_score]: neither key
    is below the other. *)
Definition ties (k a : float * OCRResultDict.t) : bool :=
  negb (tuple_lt (OCRResults.sort_key k) (OCRResults.sort_key a))
  && negb (tuple_lt (OCRResults.sort_key a) (OCRResults.sort_key k)).

(** The rectangle [(x, y, width, height)] encloses the box [q] of a
    fragment. *)
Definition encloses_box (x y width height : Z) (q : BoundingBox.t) : Prop :=
  x <= BoundingBox.x q
  /\ y <= BoundingBox.y q
  /\ x + width >= BoundingBox.x q + BoundingBox.width q
  /\ y + height >= BoundingBox.y q + BoundingBox.height q.

(** [r] keeps of [c] what satisfies [p]: the records of [r] are those
    of [c] restricted to [p], the items of [r] are built from its
    records, and, where the two views of [c] are in step, the items of
    [r] are those of [c] restricted to the items whose record
    satisfies [p]. *)
Definition keeps (p : OCRResultDict.t -> bool) (c r : OCRResults.t) : Prop :=
  restriction p (OCRResults.data c) (OCRResults.data r)
  /\ OCRResults.items r = map OCRResults.item_of (OCRResults.data r)
  /\ (in_step c ->
      restriction (fun f => p (OCRResult.data f))
        (OCRResults.items c) (OCRResults.items r)).

(** Three records that tie on score and box, of confidence 1.0, NaN
    and 0.5. *)
Definition nan_cats : OCRResults.t :=
  OCRResults.__init__
    [record "cat" f_one 0 0 1 1;
     record "cat" S754_nan 0 0 1 1;
     record "cat" f_half 0 0 1 1].

(** * Properties *)

(** ** Floats *)

Lemma compare_cont_Eq (m1 m2 : positive) :
  Pos.compare_cont Eq m1 m2 = (m1 ?= m2)%positive.
Proof. reflexivity. Qed.

Ltac float_cases :=
  repeat match goal with
  | s : bool |- _ => destruct s
  | |- context [Z.compare ?a ?b] => destruct (Z.compare_spec a b)
  | |- context [Pos.compare ?a ?b] => destruct (Pos.compare_spec a b)
  end; simpl; try (split; intros; try discriminate; try lia; try reflexivity).

Ltac float_by_cases a b :=
  destruct a, b; simpl; intros; try discriminate;
  rewrite ?compare_cont_Eq; float_cases.

Lemma float_lt_rank (a b : float) :
  is_nan a = false -> is_nan b = false ->
  float_lt a b = true <-> lex3_lt (float_rank a) (float_rank b).
Proof. unfold float_lt, SFltb. float_by_cases a b. Qed.

Lemma float_eq_rank (a b : float) :
  is_nan a = false -> is_nan b = false ->
  float_eq a b = true <-> lex3_eq (float_rank a) (float_rank b).
Proof. unfold float_eq, SFeqb. float_by_cases a b. Qed.

Lemma float_le_rank (a b : float) :
  is_nan a = false -> is_nan b = false ->
  float_le a b = true <-> ~ lex3_lt (float_rank b) (float_rank a).
Proof. unfold float_le, SFleb. float_by_cases a b. Qed.

Lemma float_ge_rank (a b : float) :
  is_nan a = false -> is_nan b = false ->
  float_ge a b = true <-> ~ lex3_lt (float_rank a) (float_rank b).
Proof. unfold float_ge. float_by_cases a b. Qed.

Lemma float_ge_not_nan (a b : float) :
  float_ge a b = true -> is_nan a = false /\ is_nan b = false.
Proof.
  unfold float_ge. destruct a, b; simpl; intros; try discriminate; auto.
Qed.

Lemma float_neg_not_nan (a : float) : is_nan (float_neg a) = is_nan a.
Proof. destruct a; reflexivity. Qed.

Lemma float_neg_rank (a : float) :
  float_rank (float_neg a)
  = (let '(r1, r2, r3) := float_rank a in (- r1, - r2, - r3)).
Proof.
  destruct a as [s|s| |s m e]; try destruct s; simpl;
    rewrite ?Z.opp_involutive; reflexivity.
Qed.


(** Two floats are [==] when they are the same number; the two zeros
    are. *)
Lemma float_eq_spec (a b : float) :
  float_eq a b = true
  <-> (a = b /\ is_nan a = false) \/ (is_zero a = true /\ is_zero b = true).
Proof.
  unfold float_eq, SFeqb.
  destruct a as [[]|[]| |[] m1 e1], b as [[]|[]| |[] m2 e2]; simpl;
    rewrite ?compare_cont_Eq;
    try destruct (Z.compare_spec e1 e2);
    try destruct (Pos.compare_spec m1 m2); simpl;
    (split;
     [ intros X; try discriminate; subst; auto
     | intros [[X ?] | [? ?]]; try discriminate;
       try (injection X; intros; subst; lia); auto ]).
Qed.

(** ** The order of the sort keys *)

Lemma lex_lt_trans (a b c : list Z) : lex_lt a b -> lex_lt b c -> lex_lt a c.
Proof.
  revert b c. induction a as [|u a IH]; intros [|v b] [|w c]; simpl; try tauto.
  intros [H1 | [H1 H2]] [H3 | [H3 H4]]; try (left; lia).
  right. split; [lia | eauto].
Qed.

Lemma lex_lt_irrefl (a : list Z) : ~ lex_lt a a.
Proof.
  induction a as [|u a IH]; simpl; [tauto | ].
  intros [H | [_ H]]; [lia | tauto].
Qed.

Lemma lex_lt_total (a b : list Z) :
  List.length a = List.length b -> lex_lt a b \/ a = b \/ lex_lt b a.
Proof.
  revert b. induction a as [|u a IH]; intros [|v b]; simpl; try discriminate.
  - auto.
  - intros H. injection H as H. destruct (IH b H) as [H1 | [H1 | H1]];
      destruct (Z.lt_total u v) as [H2 | [H2 | H2]]; subst; auto.
Qed.

Lemma lex_le_trans (a b c : list Z) :
  List.length a = List.length b -> List.length b = List.length c ->
  ~ lex_lt b a -> ~ lex_lt c b -> ~ lex_lt c a.
Proof.
  intros Hab Hbc H1 H2 H3.
  destruct (lex_lt_total a b Hab) as [H | [H | H]]; [ | subst; tauto | tauto].
  destruct (lex_lt_total b c Hbc) as [H' | [H' | H']];
    [ | subst; tauto | tauto].
  apply (lex_lt_irrefl a). eauto using lex_lt_trans.
Qed.

Lemma key_code_length (k : float * Z * Z * float) :
  List.length (key_code k) = 8%nat.
Proof.
  destruct k as [[[k0 k1] k2] k3]. unfold key_code.
  destruct (float_rank k0) as [[? ?] ?], (float_rank k3) as [[? ?] ?].
  reflexivity.
Qed.

Lemma tuple_lt_code (a b : float * Z * Z * float) :
  key_ok a -> key_ok b ->
  tuple_lt a b = true <-> lex_lt (key_code a) (key_code b).
Proof.
  destruct a as [[[a0 a1] a2] a3], b as [[[b0 b1] b2] b3].
  intros [Ha0 Ha3] [Hb0 Hb3]. unfold tuple_lt, key_code.
  pose proof (float_eq_rank a0 b0 Ha0 Hb0) as E0.
  pose proof (float_lt_rank a0 b0 Ha0 Hb0) as L0.
  pose proof (float_eq_rank a3 b3 Ha3 Hb3) as E3.
  pose proof (float_lt_rank a3 b3 Ha3 Hb3) as L3.
  destruct (float_rank a0) as [[p1 p2] p3], (float_rank b0) as [[q1 q2] q3].
  destruct (float_rank a3) as [[s1 s2] s3], (float_rank b3) as [[t1 t2] t3].
  unfold lex3_eq, lex3_lt in *. simpl.
  destruct (float_eq a0 b0); simpl.
  - destruct (Z.eqb_spec a1 b1); simpl.
    + destruct (Z.eqb_spec a2 b2); simpl.
      * destruct (float_eq a3 b3); simpl.
        -- split; [discriminate | ]. intros H. exfalso.
           assert (p1 = q1 /\ p2 = q2 /\ p3 = q3) by tauto.
           assert (s1 = t1 /\ s2 = t2 /\ s3 = t3) by tauto. lia.
        -- assert (p1 = q1 /\ p2 = q2 /\ p3 = q3) as Hp by tauto.
           assert (~ (s1 = t1 /\ s2 = t2 /\ s3 = t3)) as Hs
               by (intros X; apply E3 in X; discriminate).
           rewrite L3. clear E0 L0 E3 L3. split; intros H; lia.
      * assert (p1 = q1 /\ p2 = q2 /\ p3 = q3) as Hp by tauto.
        clear E0 L0 E3 L3. rewrite Z.ltb_lt. split; intros H; lia.
    + assert (p1 = q1 /\ p2 = q2 /\ p3 = q3) as Hp by tauto.
      clear E0 L0 E3 L3. rewrite Z.ltb_lt. split; intros H; lia.
  - assert (~ (p1 = q1 /\ p2 = q2 /\ p3 = q3)) as Hp
        by (intros X; apply E0 in X; discriminate).
    rewrite L0. clear E0 L0 E3 L3. split; intros H; lia.
Qed.

Lemma tuple_lt_asym (a b : float * Z * Z * float) :
  key_ok a -> key_ok b -> tuple_lt a b = true -> tuple_lt b a = false.
Proof.
  intros Ha Hb H. apply (tuple_lt_code a b Ha Hb) in H.
  destruct (tuple_lt b a) eqn:E; [ | reflexivity].
  apply (tuple_lt_code b a Hb Ha) in E.
  exfalso. apply (lex_lt_irrefl (key_code a)). eauto using lex_lt_trans.
Qed.

Lemma tuple_le_trans (a b c : float * Z * Z * float) :
  key_ok a -> key_ok b -> key_ok c ->
  tuple_lt b a = false -> tuple_lt c b = false -> tuple_lt c a = false.
Proof.
  intros Ha Hb Hc H1 H2.
  destruct (tuple_lt c a) eqn:E; [ | reflexivity].
  apply (tuple_lt_code c a Hc Ha) in E. exfalso.
  refine (lex_le_trans (key_code a) (key_code b) (key_code c) _ _ _ _ E).
  - now rewrite !key_code_length.
  - now rewrite !key_code_length.
  - intros X. apply (tuple_lt_code b a Hb Ha) in X. congruence.
  - intros X. apply (tuple_lt_code c b Hc Hb) in X. congruence.
Qed.

(** ** Sorting *)

Section SortedFacts.
Context {A K : Type}.
Variable lt : K -> K -> bool.
Variable key : A -> K.
Variable good : A -> Prop.

Hypothesis lt_asym : forall a b, good a -> good b ->
  lt (key a) (key b) = true -> lt (key b) (key a) = false.
Hypothesis le_trans : forall a b c, good a -> good b -> good c ->
  lt (key b) (key a) = false -> lt (key c) (key b) = false ->
  lt (key c) (key a) = false.

Let le (a b : A) : Prop := lt (key b) (key a) = false.

Lemma insert_sorted_perm (x : A) (l : list A) :
  Permutation (insert_sorted lt key x l) (x :: l).
Proof.
  induction l as [|y l IH]; simpl; [reflexivity | ].
  destruct (lt (key y) (key x)); [ | reflexivity].
  rewrite IH. apply perm_swap.
Qed.

Lemma sorted_perm (l : list A) : Permutation (sorted lt key l) l.
Proof.
  induction l as [|x l IH]; simpl; [reflexivity | ].
  rewrite insert_sorted_perm. now constructor.
Qed.

Lemma insert_sorted_ordered (x : A) (l : list A) :
  good x -> Forall good l -> StronglySorted le l ->
  StronglySorted le (insert_sorted lt key x l).
Proof.
  intros Hx Hl Hs. induction Hs as [|y l Hs IH Hy]; simpl.
  - repeat constructor.
  - inversion Hl as [|? ? Gy Gl]; subst.
    destruct (lt (key y) (key x)) eqn:E.
    + constructor; [now apply IH | ].
      apply (Permutation_Forall (Permutation_sym (insert_sorted_perm x l))).
      constructor; [ | exact Hy].
      unfold le. now apply lt_asym.
    + constructor; [now constructor | ].
      constructor; [exact E | ].
      rewrite Forall_forall in *. intros z Hz.
      unfold le. apply (le_trans x y z); auto. now apply Hy.
Qed.

Lemma sorted_ordered (l : list A) :
  Forall good l -> StronglySorted le (sorted lt key l).
Proof.
  induction l as [|x l IH]; simpl; intros H; [constructor | ].
  inversion H; subst. apply insert_sorted_ordered; auto.
  apply (Permutation_Forall (Permutation_sym (sorted_perm l))). assumption.
Qed.

End SortedFacts.

(** The order of equal keys.  [same_key k a] holds where neither key is
    below the other. *)
Section StableSort.
Context {A K : Type}.
Variable lt : K -> K -> bool.
Variable key : A -> K.
Variable good : A -> Prop.

Hypothesis lt_asym : forall a b, good a -> good b ->
  lt (key a) (key b) = true -> lt (key b) (key a) = false.
Hypothesis le_trans : forall a b c, good a -> good b -> good c ->
  lt (key b) (key a) = false -> lt (key c) (key b) = false ->
  lt (key c) (key a) = false.

Let le (a b : A) : Prop := lt (key b) (key a) = false.

Let same_key (k a : A) : bool :=
  negb (lt (key k) (key a)) && negb (lt (key a) (key k)).

Lemma lt_irrefl (a : A) : good a -> lt (key a) (key a) = false.
Proof.
  intros Ha. destruct (lt (key a) (key a)) eqn:E; [ | reflexivity].
  rewrite <- E. now apply lt_asym.
Qed.

Lemma insert_sorted_stable (k x : A) (l : list A) :
  good k -> good x -> Forall good l ->
  List.filter (same_key k) (insert_sorted lt key x l)
  = List.filter (same_key k) (x :: l).
Proof.
  intros Hk Hx Hl. induction Hl as [|y l Hy Hl IH]; [reflexivity | ].
  cbn [insert_sorted]. destruct (lt (key y) (key x)) eqn:E; [ | reflexivity].
  cbn [List.filter] in *. rewrite IH.
  destruct (same_key k y) eqn:Ey, (same_key k x) eqn:Ex; try reflexivity.
  exfalso. unfold same_key in Ey, Ex.
  apply andb_true_iff in Ey as [_ Ey], Ex as [Ex _].
  apply negb_true_iff in Ey, Ex.
  rewrite (le_trans x k y Hx Hk Hy Ex Ey) in E. discriminate.
Qed.

(** Elements of equal keys leave [sorted] in the order they entered. *)
Lemma sorted_stable (k : A) (l : list A) :
  good k -> Forall good l ->
  List.filter (same_key k) (sorted lt key l) = List.filter (same_key k) l.
Proof.
  intros Hk Hl. induction Hl as [|x l Hx Hl IH]; [reflexivity | ].
  cbn [sorted]. rewrite insert_sorted_stable; auto.
  - cbn [List.filter]. now rewrite IH.
  - apply (Permutation_Forall (Permutation_sym (sorted_perm lt key l))).
    assumption.
Qed.

(** Two ordered arrangements of the same elements that agree on the
    order of equal keys are the same list. *)
Lemma stable_order_unique (r1 r2 : list A) :
  Forall good r1 -> Permutation r1 r2 ->
  StronglySorted le r1 -> StronglySorted le r2 ->
  (forall k, good k ->
             List.filter (same_key k) r1 = List.filter (same_key k) r2) ->
  r1 = r2.
Proof.
  intros Hg. revert r2.
  induction Hg as [|a r1 Ha Hg IH]; intros r2 Hperm Hs1 Hs2 Hst.
  - now apply Permutation_nil in Hperm.
  - destruct r2 as [|b r2].
    { symmetry in Hperm. now apply Permutation_nil in Hperm. }
    assert (good b) as Hb.
    { assert (Forall good (b :: r2)) as X
          by (apply (Permutation_Forall Hperm); now constructor).
      now inversion X. }
    inversion Hs1 as [|? ? Hs1' Hle1]; subst.
    inversion Hs2 as [|? ? Hs2' Hle2]; subst.
    assert (a = b) as ->.
    { assert (In a (b :: r2)) as Hina
          by (apply (Permutation_in _ Hperm); now left).
      assert (In b (a :: r1)) as Hinb
          by (apply (Permutation_in _ (Permutation_sym Hperm)); now left).
      destruct Hina as [-> | Hina]; [reflexivity | ].
      destruct Hinb as [-> | Hinb]; [reflexivity | ].
      rewrite Forall_forall in Hle1, Hle2.
      pose proof (Hle1 b Hinb) as Hab. pose proof (Hle2 a Hina) as Hba.
      unfold le in Hab, Hba.
      assert (same_key a a = true) as Eaa
          by (unfold same_key; now rewrite (lt_irrefl a Ha)).
      assert (same_key a b = true) as Eab
          by (unfold same_key; now rewrite Hab, Hba).
      pose proof (Hst a Ha) as E. cbn [List.filter] in E.
      rewrite Eaa, Eab in E. congruence. }
    f_equal. apply IH; auto.
    + now apply Permutation_cons_inv in Hperm.
    + intros k Hk. pose proof (Hst k Hk) as E. cbn [List.filter] in E.
      destruct (same_key k b); congruence.
Qed.

(** [sorted] returns the one arrangement that is ordered and keeps the
    order of equal keys: what every stable sort returns. *)
Lemma sorted_unique (l r : list A) :
  Forall good l -> Permutation r l -> StronglySorted le r ->
  (forall k, good k ->
             List.filter (same_key k) r = List.filter (same_key k) l) ->
  r = sorted lt key l.
Proof.
  intros Hl Hperm Hs Hst.
  apply stable_order_unique; auto.
  - apply (Permutation_Forall (Permutation_sym Hperm)). assumption.
  - rewrite Hperm. symmetry. apply sorted_perm.
  - now apply (sorted_ordered lt key good).
  - intros k Hk. rewrite Hst by assumption. symmetry.
    now apply sorted_stable.
Qed.

End StableSort.

Lemma StronglySorted_map_impl {A B : Type} (R : A -> A -> Prop)
  (S : B -> B -> Prop) (good : A -> Prop) (f : A -> B) (l : list A) :
  (forall a b, good a -> good b -> R a b -> S (f a) (f b)) ->
  Forall good l -> StronglySorted R l -> StronglySorted S (map f l).
Proof.
  intros HRS Hg Hs. induction Hs as [|a l Hs IH Ha]; simpl; constructor.
  - apply IH. now inversion Hg.
  - inversion Hg as [|? ? Ga Gl]; subst.
    rewrite Forall_forall in *. intros b Hb.
    apply in_map_iff in Hb as [c [<- Hc]]. auto.
Qed.

Lemma combine_map_fst_snd {A B C : Type} (f : B -> C) (l : list (A * B)) :
  combine (map fst l) (map f (map snd l)) = map (fun p => (fst p, f (snd p))) l.
Proof. induction l as [|[a b] l IH]; simpl; congruence. Qed.

(** ** Sub-sequences *)

Lemma Subseq_refl {A : Type} (l : list A) : Subseq l l.
Proof. induction l; constructor; assumption. Qed.

Lemma Subseq_filter {A : Type} (p : A -> bool) (l : list A) :
  Subseq (List.filter p l) l.
Proof.
  induction l as [|a l IH]; simpl; [constructor | ].
  destruct (p a); now constructor.
Qed.

Lemma Subseq_into_filter {A : Type} (p : A -> bool) (s l : list A) :
  Subseq s l -> Forall (fun a => p a = true) s -> Subseq s (List.filter p l).
Proof.
  induction 1 as [|a s l H IH|a s l H IH]; intros Hs; simpl.
  - constructor.
  - inversion Hs as [|? ? Ha Hs']; subst. rewrite Ha. constructor. auto.
  - destruct (p a); [constructor | ]; auto.
Qed.

Lemma filter_restriction {A : Type} (p : A -> bool) (l : list A) :
  restriction p l (List.filter p l).
Proof.
  split; [apply Subseq_filter | split].
  - apply Forall_forall. intros a Ha. now apply filter_In in Ha.
  - intros s. apply Subseq_into_filter.
Qed.

Lemma Subseq_length {A : Type} (s l : list A) :
  Subseq s l -> (List.length s <= List.length l)%nat.
Proof. induction 1; simpl; lia. Qed.

Lemma Subseq_same_length {A : Type} (s l : list A) :
  Subseq s l -> List.length s = List.length l -> s = l.
Proof.
  induction 1 as [|a s l H IH|a s l H IH]; simpl; intros E.
  - reflexivity.
  - f_equal. apply IH. lia.
  - apply Subseq_length in H. lia.
Qed.

(** A restriction is determined by the list and the predicate. *)
Lemma restriction_unique {A : Type} (p : A -> bool) (l r : list A) :
  restriction p l r -> r = List.filter p l.
Proof.
  intros (Hsub & Hp & Hmax).
  assert (Subseq r (List.filter p l)) as H1 by now apply Subseq_into_filter.
  assert (Subseq (List.filter p l) r) as H2.
  { apply Hmax; [apply Subseq_filter | ].
    apply Forall_forall. intros a Ha. now apply filter_In in Ha. }
  apply Subseq_same_length; [assumption | ].
  apply Subseq_length in H1. apply Subseq_length in H2. lia.
Qed.

Lemma filter_twice {A : Type} (p : A -> bool) (l : list A) :
  List.filter p (List.filter p l) = List.filter p l.
Proof.
  induction l as [|a l IH]; simpl; [reflexivity | ].
  destruct (p a) eqn:E; simpl; rewrite ?E, IH; reflexivity.
Qed.

(** ** Ranked search *)

Lemma tuple_le_ranked (p q : float * OCRResultDict.t) :
  key_ok (OCRResults.sort_key p) -> key_ok (OCRResults.sort_key q) ->
  tuple_lt (OCRResults.sort_key q) (OCRResults.sort_key p) = false ->
  ranked (fst p, OCRResults.item_of (snd p))
    (fst q, OCRResults.item_of (snd q)).
Proof.
  intros Hp Hq H.
  assert (~ lex_lt (key_code (OCRResults.sort_key q))
            (key_code (OCRResults.sort_key p))) as Hlex.
  { intros X. apply (tuple_lt_code _ _ Hq Hp) in X. congruence. }
  clear H. destruct p as [sp dp], q as [sq dq].
  unfold OCRResults.sort_key, key_ok in *. simpl in *.
  destruct Hp as [Hsp Hcp], Hq as [Hsq Hcq].
  rewrite float_neg_not_nan in Hsp, Hsq.
  unfold ranked; simpl.
  rewrite (float_lt_rank sq sp Hsq Hsp), (float_eq_rank sp sq Hsp Hsq),
    (float_le_rank _ _ Hcp Hcq).
  rewrite !float_neg_rank in Hlex.
  destruct (float_rank sp) as [[p1 p2] p3], (float_rank sq) as [[q1 q2] q3].
  destruct (float_rank (OCRResultDict.confidence dp)) as [[c1 c2] c3].
  destruct (float_rank (OCRResultDict.confidence dq)) as [[e1 e2] e3].
  unfold lex3_lt, lex3_eq. simpl in Hlex.
  set (xp := BoundingBoxDict.x (OCRResultDict.boundingBox dp)) in *.
  set (xq := BoundingBoxDict.x (OCRResultDict.boundingBox dq)) in *.
  set (yp := BoundingBoxDict.y (OCRResultDict.boundingBox dp)) in *.
  set (yq := BoundingBoxDict.y (OCRResultDict.boundingBox dq)) in *.
  clearbody xp xq yp yq. lia.
Qed.

Section SearchFacts.
Variable str_lower : string -> string.
Variables (query : string) (threshold : float) (lowercase : bool).
Variable score_func : string -> string -> float.

Let score (d : OCRResultDict.t) : float :=
  score_of str_lower query lowercase score_func (OCRResultDict.text d).

Let survives (d : OCRResultDict.t) : bool := float_ge (score d) threshold.

Lemma matches_loop (l : list OCRResultDict.t)
  (acc : list (float * OCRResultDict.t)) :
  fold_left
    (fun matches d =>
       if float_ge (score d) threshold then matches ++ [(score d, d)]
       else matches) l acc
  = acc ++ map (fun d => (score d, d)) (List.filter survives l).
Proof.
  revert acc. induction l as [|d l IH]; intros acc; simpl.
  - now rewrite app_nil_r.
  - rewrite IH. unfold survives. destruct (float_ge (score d) threshold); simpl.
    + now rewrite <- app_assoc.
    + reflexivity.
Qed.

Lemma _search_and_score_eq (self : OCRResults.t) :
  OCRResults._search_and_score str_lower self query threshold lowercase
    score_func
  = sorted tuple_lt OCRResults.sort_key
      (map (fun d => (score d, d))
         (List.filter survives (OCRResults.data self))).
Proof.
  unfold OCRResults._search_and_score. f_equal.
  rewrite <- (app_nil_l (map _ _)). rewrite <- matches_loop.
  unfold score, score_of. destruct lowercase; reflexivity.
Qed.

Lemma search_and_score_eq (self : OCRResults.t) :
  OCRResults.search_and_score str_lower self query threshold lowercase
    score_func
  = map (fun p => (fst p, OCRResults.item_of (snd p)))
      (OCRResults._search_and_score str_lower self query threshold lowercase
         score_func).
Proof.
  unfold OCRResults.search_and_score. simpl. apply combine_map_fst_snd.
Qed.

Lemma _search_and_score_perm (self : OCRResults.t) :
  Permutation
    (OCRResults._search_and_score str_lower self query threshold lowercase
       score_func)
    (map (fun d => (score d, d)) (List.filter survives (OCRResults.data self))).
Proof. rewrite _search_and_score_eq. apply sorted_perm. Qed.

End SearchFacts.

(** ** Comprehensions that can raise *)

Lemma filter_raising_cases {A : Type} (cond : A -> result bool) (l : list A) :
  match filter_raising cond l with
  | Ok r =>
      r = List.filter (fun a => match cond a with Ok b => b | Raise _ => false end) l
      /\ (forall a, In a l -> exists b, cond a = Ok b)
  | Raise e => exists a, In a l /\ cond a = Raise e
  end.
Proof.
  induction l as [|a l IH]; simpl.
  - split; [reflexivity | intros a []].
  - destruct (cond a) as [b|e] eqn:E; simpl.
    + destruct (filter_raising cond l) as [r|e]; simpl.
      * destruct IH as [-> IH]. split; [reflexivity | ].
        intros a' [<- | H]; eauto.
      * destruct IH as (a' & H & H'). eauto.
    + eauto.
Qed.

Lemma matching_cases (re_match : string -> string -> Z -> re_outcome)
  (self : OCRResults.t) (pattern : string) (flag : Z) :
  match OCRResults.matching re_match self pattern flag with
  | Ok r =>
      r = OCRResults.__init__
            (List.filter
               (fun d => re_truthy (re_match (OCRResultDict.text d) pattern flag))
               (OCRResults.data self))
      /\ (forall d, In d (OCRResults.data self) ->
                    re_match (OCRResultDict.text d) pattern flag <> re_error)
  | Raise e =>
      e = ReError
      /\ exists d, In d (OCRResults.data self)
                   /\ re_match (OCRResultDict.text d) pattern flag = re_error
  end.
Proof.
  unfold OCRResults.matching.
  pose proof (filter_raising_cases
                (OCRResults.matching_cond re_match pattern flag)
                (OCRResults.data self)) as H.
  destruct (filter_raising _ _) as [r|e]; simpl.
  - destruct H as [-> H]. split.
    + f_equal. apply filter_ext. intros d. unfold OCRResults.matching_cond.
      now destruct (re_match _ _ _).
    + intros d Hd E. destruct (H d Hd) as [b Hb].
      unfold OCRResults.matching_cond in Hb. rewrite E in Hb. discriminate.
  - destruct H as (d & Hd & E). unfold OCRResults.matching_cond in E.
    destruct (re_match _ _ _) eqn:E'; try discriminate.
    injection E as <-. eauto.
Qed.

(** ** Indexing and slicing *)

Lemma list_getitem_nonneg {A : Type} (l : list A) (i : Z) (a : A) :
  0 <= i -> nth_error l (Z.to_nat i) = Some a -> list_getitem l i = Ok a.
Proof.
  intros Hi H. unfold list_getitem.
  assert (Z.to_nat i < List.length l)%nat as Hlen
      by (apply nth_error_Some; congruence).
  destruct (Z.ltb_spec i 0); [lia | ].
  destruct (Z.ltb_spec i 0); [lia | ].
  destruct (Z.leb_spec (Z.of_nat (List.length l)) i); [lia | ].
  simpl. now rewrite H.
Qed.

Lemma list_getitem_cases {A : Type} (l : list A) (i : Z) :
  let n := Z.of_nat (List.length l) in
  (0 <= i < n /\ exists a, list_getitem l i = Ok a
                           /\ nth_error l (Z.to_nat i) = Some a)
  \/ (- n <= i < 0 /\ exists a, list_getitem l i = Ok a
                                /\ nth_error l (Z.to_nat (n + i)) = Some a)
  \/ ((i < - n \/ n <= i) /\ list_getitem l i = Raise IndexError).
Proof.
  intros n. unfold list_getitem. fold n.
  destruct (Z.ltb_spec i 0) as [Hneg|Hpos].
  - destruct (Z.ltb_spec (i + n) 0) as [H|H]; simpl.
    + right; right. split; [lia | reflexivity].
    + destruct (Z.leb_spec n (i + n)) as [H'|H']; [lia | ].
      right; left. split; [lia | ].
      destruct (nth_error l (Z.to_nat (i + n))) as [a|] eqn:E.
      * exists a. split; [reflexivity | ]. now rewrite Z.add_comm.
      * apply nth_error_None in E. lia.
  - destruct (Z.ltb_spec i 0) as [H|H]; [lia | ]. simpl.
    destruct (Z.leb_spec n i) as [H'|H'].
    + right; right. split; [lia | reflexivity].
    + left. split; [lia | ].
      destruct (nth_error l (Z.to_nat i)) as [a|] eqn:E.
      * exists a. split; reflexivity.
      * apply nth_error_None in E. lia.
Qed.

Lemma skipn_nth_error {A : Type} (l : list A) (s : nat) (a : A) :
  nth_error l s = Some a -> skipn s l = a :: skipn (S s) l.
Proof.
  revert l. induction s as [|s IH]; intros [|b l]; simpl; try discriminate.
  - now intros [= ->].
  - intros H. now apply IH.
Qed.

Lemma take_by_index {A : Type} (l : list A) (n s : nat) :
  (s + n <= List.length l)%nat ->
  flat_map (fun k => match nth_error l (s + k) with
                     | Some a => [a]
                     | None => []
                     end) (seq 0 n)
  = firstn n (skipn s l).
Proof.
  revert s. induction n as [|n IH]; intros s H; [reflexivity | ].
  rewrite <- cons_seq, <- seq_shift. cbn [flat_map].
  rewrite Nat.add_0_r.
  destruct (nth_error l s) as [a|] eqn:E.
  - rewrite (skipn_nth_error l s a E), firstn_cons. cbn [app]. f_equal.
    rewrite <- (IH (S s)) by lia.
    rewrite flat_map_concat_map, map_map, <- flat_map_concat_map.
    apply flat_map_ext. intros k. now rewrite Nat.add_succ_r.
  - apply nth_error_None in E. lia.
Qed.

Lemma slice_bound_range (len : Z) (v : option Z) (default : Z) :
  0 <= len -> 0 <= default <= len -> 0 <= slice_bound len v default <= len.
Proof.
  intros Hlen Hd. unfold slice_bound. destruct v as [v|]; [ | assumption].
  destruct (Z.ltb_spec v 0); lia.
Qed.

Lemma list_getslice_plain {A : Type} (l : list A) (lo hi : option Z) :
  let len := Z.of_nat (List.length l) in
  let s := slice_bound len lo 0 in
  let e := slice_bound len hi len in
  list_getslice l lo hi None
  = Ok (firstn (Z.to_nat (e - s)) (skipn (Z.to_nat s) l)).
Proof.
  intros len s e. unfold list_getslice, slice_indices. simpl.
  fold len.
  change (match lo with
          | Some v => if v <? 0 then Z.max (v + len) 0 else Z.min v len
          | None => 0
          end) with s.
  change (match hi with
          | Some v => if v <? 0 then Z.max (v + len) 0 else Z.min v len
          | None => len
          end) with e.
  assert (0 <= s <= len) as Hs by (apply slice_bound_range; lia).
  assert (0 <= e <= len) as He by (apply slice_bound_range; lia).
  f_equal.
  assert (Z.to_nat (slice_length s e 1) = Z.to_nat (e - s)) as ->.
  { unfold slice_length. simpl. destruct (Z.ltb_spec s e).
    - rewrite Z.div_1_r. f_equal. lia.
    - lia. }
  rewrite <- take_by_index by lia.
  apply flat_map_ext. intros k.
  replace (Z.to_nat (s + Z.of_nat k * 1)) with (Z.to_nat s + k)%nat by lia.
  reflexivity.
Qed.

Lemma getitem_slice_step_zero (self : OCRResults.t) (lo hi : option Z) :
  OCRResults.__getitem__ self (OCRResults.a_slice lo hi (Some 0))
  = Raise ValueError.
Proof. reflexivity. Qed.

(** ** The empty collection, [first] and [last] *)

Lemma first_returns (self : OCRResults.t) :
  OCRResults.first self = Ok (hd_error (OCRResults.items self)).
Proof.
  unfold OCRResults.first, OCRResults.__bool__.
  destruct (OCRResults.items self) as [|r l]; reflexivity.
Qed.

Lemma last_returns (self : OCRResults.t) :
  exists o, OCRResults.last self = Ok o
            /\ (o = None <-> OCRResults.items self = [])
            /\ forall r, o = Some r ->
                 nth_error (OCRResults.items self)
                   (List.length (OCRResults.items self) - 1) = Some r.
Proof.
  unfold OCRResults.last, OCRResults.__bool__.
  destruct (OCRResults.items self) as [|r0 l] eqn:E.
  - exists None. repeat split; intros; congruence.
  - rewrite <- E.
    destruct (list_getitem_cases (OCRResults.items self) (-1))
      as [[H _] | [[H (a & Ha & Hn)] | [H _]]];
      rewrite E in *; simpl List.length in *; try lia.
    exists (Some a). rewrite Ha. simpl. repeat split; try congruence.
    intros r [= <-]. rewrite <- Hn. f_equal. lia.
Qed.

Lemma empty_collection_closure (str_lower : string -> string)
  (re_match : string -> string -> Z -> re_outcome) :
  let nothing := OCRResults.__init__ [] in
  (forall threshold, OCRResults.minimum_confidence nothing threshold = nothing)
  /\ (forall x y width height,
        OCRResults.within nothing x y width height = nothing)
  /\ (forall text lowercase,
        OCRResults.containing str_lower nothing text lowercase = nothing)
  /\ (forall text lowercase,
        OCRResults.exactly str_lower nothing text lowercase = nothing)
  /\ (forall pattern flag,
        OCRResults.matching re_match nothing pattern flag = Ok nothing)
  /\ (forall func, OCRResults.filter nothing func = nothing)
  /\ (forall query threshold lowercase score_func,
        OCRResults.search str_lower nothing query threshold lowercase
          score_func = nothing
        /\ OCRResults.search_and_score str_lower nothing query threshold
             lowercase score_func = [])
  /\ OCRResults.first nothing = Ok None
  /\ OCRResults.last nothing = Ok None.
Proof.
  simpl. repeat split; try reflexivity; destruct lowercase; reflexivity.
Qed.

(** ** What a filter keeps *)

Lemma data_item_of (d : OCRResultDict.t) :
  OCRResult.data (OCRResults.item_of d) = d.
Proof. destruct d as [t c [x y w h]]. reflexivity. Qed.

Lemma filter_map_item_of (p : OCRResultDict.t -> bool)
  (l : list OCRResultDict.t) :
  map OCRResults.item_of (List.filter p l)
  = List.filter (fun f => p (OCRResult.data f)) (map OCRResults.item_of l).
Proof.
  induction l as [|d l IH]; simpl; [reflexivity | ].
  rewrite data_item_of. destruct (p d); simpl; now rewrite IH.
Qed.

Lemma init_keeps (p : OCRResultDict.t -> bool) (self : OCRResults.t) :
  keeps p self (OCRResults.__init__ (List.filter p (OCRResults.data self))).
Proof.
  split; [apply filter_restriction | split; [reflexivity | ]].
  intros H. simpl. rewrite H, filter_map_item_of. apply filter_restriction.
Qed.

(** A list in which no key is below the key before it leaves [sorted]
    as it entered, whatever [lt] is: the case in which the sort of
    Python finds one ascending run and moves nothing. *)
Lemma sorted_run {A K : Type} (lt : K -> K -> bool) (key : A -> K)
  (l : list A) :
  (forall a b l1 l2, l = l1 ++ a :: b :: l2 -> lt (key b) (key a) = false) ->
  sorted lt key l = l.
Proof.
  induction l as [|a l IH]; intros H; [reflexivity | ].
  simpl. rewrite IH.
  - destruct l as [|b l]; [reflexivity | ]. simpl.
    now rewrite (H a b [] l eq_refl).
  - intros x y l1 l2 E. apply (H x y (a :: l1) l2). now rewrite E.
Qed.

(** * The claims *)

(** C1.  Where every confidence of the collection is a number, the
    pairs that [search_and_score] returns are the surviving records,
    each with its score and as often as it occurs, ranked: the score
    descending, then [bounding_box.x], [bounding_box.y] and the
    confidence ascending.  [search] returns the fragments of these
    pairs in the same order, built from the records it holds. *)
Theorem search_results_ranked (str_lower : string -> string)
  (self : OCRResults.t) (query : string) (threshold : float)
  (lowercase : bool) (score_func : string -> string -> float) :
  (forall d, In d (OCRResults.data self) ->
             is_nan (OCRResultDict.confidence d) = false) ->
  StronglySorted ranked
    (OCRResults.search_and_score str_lower self query threshold lowercase
       score_func)
  /\ Permutation
       (OCRResults.search_and_score str_lower self query threshold lowercase
          score_func)
       (map (fun d => (score_of str_lower query lowercase score_func
                         (OCRResultDict.text d), OCRResults.item_of d))
          (List.filter
             (fun d => float_ge (score_of str_lower query lowercase score_func
                                   (OCRResultDict.text d)) threshold)
             (OCRResults.data self)))
  /\ OCRResults.items
       (OCRResults.search str_lower self query threshold lowercase score_func)
     = map snd
         (OCRResults.search_and_score str_lower self query threshold lowercase
            score_func)
  /\ OCRResults.items
       (OCRResults.search str_lower self query threshold lowercase score_func)
     = map OCRResults.item_of
         (OCRResults.data
            (OCRResults.search str_lower self query threshold lowercase
               score_func))
  /\ Forall
       (fun p => fst p = score_of str_lower query lowercase score_func
                           (OCRResult.text (snd p)))
       (OCRResults.search_and_score str_lower self query threshold lowercase
          score_func).
Proof.
  intros Hconf. rewrite search_and_score_eq.
  pose proof (_search_and_score_perm str_lower query threshold lowercase
                score_func self) as Hperm.
  set (kept := map _ (List.filter _ _)) in Hperm.
  assert (Forall (fun p => key_ok (OCRResults.sort_key p)
                           /\ fst p = score_of str_lower query lowercase
                                        score_func (OCRResultDict.text (snd p)))
            kept) as Hkept.
  { apply Forall_forall. intros p Hp. subst kept.
    apply in_map_iff in Hp as (d & <- & Hd).
    apply filter_In in Hd as [Hd Hge]. simpl.
    apply float_ge_not_nan in Hge as [Hs _].
    rewrite float_neg_not_nan. auto. }
  split; [ | split; [ | split; [ | split]]].
  - apply (StronglySorted_map_impl
             (fun a b => tuple_lt (OCRResults.sort_key b) (OCRResults.sort_key a)
                         = false)
             ranked (fun p => key_ok (OCRResults.sort_key p))).
    + intros a b. apply tuple_le_ranked.
    + apply (Permutation_Forall (Permutation_sym Hperm)).
      revert Hkept. apply Forall_impl. tauto.
    + rewrite _search_and_score_eq.
      apply (sorted_ordered tuple_lt OCRResults.sort_key
               (fun p => key_ok (OCRResults.sort_key p))).
      * intros a b. apply tuple_lt_asym.
      * intros a b c. apply tuple_le_trans.
      * revert Hkept. apply Forall_impl. tauto.
  - rewrite (Permutation_map _ Hperm). subst kept.
    rewrite map_map. reflexivity.
  - unfold OCRResults.search. simpl. rewrite !map_map. reflexivity.
  - reflexivity.
  - apply Forall_forall. intros p Hp.
    apply in_map_iff in Hp as (q & <- & Hq). simpl.
    apply (Permutation_in _ Hperm) in Hq.
    rewrite Forall_forall in Hkept. now apply Hkept.
Qed.

(** C1, as it is claimed for every collection.  The three records of
    [nan_cats] tie on score and box; no key is below the key before it,
    since every comparison with NaN is false, and the sort moves
    nothing ([sorted_run]).  The record of confidence 1.0 stays before
    the record of confidence 0.5. *)
Lemma search_unranked_with_nan :
  OCRResults.search_and_score lower_ascii nan_cats "cat" f_zero false
    score_equal
  = [(f_one, OCRResults.item_of (record "cat" f_one 0 0 1 1));
     (f_one, OCRResults.item_of (record "cat" S754_nan 0 0 1 1));
     (f_one, OCRResults.item_of (record "cat" f_half 0 0 1 1))]
  /\ ~ StronglySorted ranked
        (OCRResults.search_and_score lower_ascii nan_cats "cat" f_zero false
           score_equal).
Proof.
  split; [reflexivity | ].
  intros H.
  change (OCRResults.search_and_score lower_ascii nan_cats "cat" f_zero false
            score_equal)
    with [(f_one, OCRResults.item_of (record "cat" f_one 0 0 1 1));
          (f_one, OCRResults.item_of (record "cat" S754_nan 0 0 1 1));
          (f_one, OCRResults.item_of (record "cat" f_half 0 0 1 1))] in H.
  apply StronglySorted_inv in H as [_ H].
  apply Forall_inv_tail, Forall_inv in H.
  unfold ranked in H. simpl in H.
  destruct H as [H | [_ [H | [_ [H | [_ H]]]]]];
    try discriminate; lia.
Qed.


(** C2.  [matching] hands the fragment's text to [re.match] as the
    pattern and the given pattern as the subject.  For the pattern
    [a] and a collection of the one fragment [ab], where [re.match]
    finds [a] at the start of [ab] but not [ab] at the start of [a],
    [matching] returns the empty collection, and applying the pattern
    to the text keeps the fragment. *)
Theorem matching_swaps_pattern_and_text
  (re_match : string -> string -> Z -> re_outcome) :
  re_match "a"%string "ab"%string 0 = re_Match ->
  re_match "ab"%string "a"%string 0 = re_None ->
  OCRResults.matching re_match
    (OCRResults.__init__ [record "ab" f_half 0 0 1 1]) "a" 0
  = Ok (OCRResults.__init__ [])
  /\ matching_as_specified re_match
       (OCRResults.__init__ [record "ab" f_half 0 0 1 1]) "a" 0
     = [record "ab" f_half 0 0 1 1].
Proof.
  intros H1 H2. unfold OCRResults.matching, matching_as_specified. simpl.
  unfold OCRResults.matching_cond. simpl. rewrite H1, H2. simpl. auto.
Qed.

(** C4.  [within(x, y, width, height)] keeps exactly what the
    rectangle encloses, in order: the records of the result, and the
    fragments built from them, are those of the collection whose box
    the rectangle encloses.  It keeps a fragment of box
    [(x+1, y+1, width-2, height-2)] and drops one of box
    [(x-1, y, width, height)]. *)
Theorem within_keeps_enclosed (self : OCRResults.t) (x y width height : Z) :
  (exists p,
     keeps p self (OCRResults.within self x y width height)
     /\ forall d, p d = true
                  <-> encloses x y width height (OCRResultDict.boundingBox d))
  /\ (forall d,
        In d (OCRResults.data (OCRResults.within self x y width height))
        <-> In d (OCRResults.data self)
            /\ encloses x y width height (OCRResultDict.boundingBox d))
  /\ (in_step self ->
      forall f,
        In f (OCRResults.items (OCRResults.within self x y width height))
        <-> In f (OCRResults.items self)
            /\ encloses_box x y width height (OCRResult.bounding_box f))
  /\ (in_step self ->
      forall text confidence,
        In (OCRResult.mk text confidence
              (BoundingBox.mk (x + 1) (y + 1) (width - 2) (height - 2)))
          (OCRResults.items self) ->
        In (OCRResult.mk text confidence
              (BoundingBox.mk (x + 1) (y + 1) (width - 2) (height - 2)))
          (OCRResults.items (OCRResults.within self x y width height)))
  /\ (forall text confidence,
        ~ In (OCRResult.mk text confidence
                (BoundingBox.mk (x - 1) y width height))
            (OCRResults.items (OCRResults.within self x y width height)))
  /\ (forall text confidence,
        In (record text confidence (x + 1) (y + 1) (width - 2) (height - 2))
          (OCRResults.data self) ->
        In (record text confidence (x + 1) (y + 1) (width - 2) (height - 2))
          (OCRResults.data (OCRResults.within self x y width height)))
  /\ (forall text confidence,
        ~ In (record text confidence (x - 1) y width height)
            (OCRResults.data (OCRResults.within self x y width height))).
Proof.
  change (OCRResults.within self x y width height)
    with (OCRResults.__init__
            (List.filter (within_cond x y width height)
               (OCRResults.data self))).
  set (p := within_cond x y width height).
  assert (forall d, p d = true
                    <-> encloses x y width height (OCRResultDict.boundingBox d))
    as Hp.
  { intros d. unfold p, within_cond, encloses.
    rewrite !andb_true_iff, !Z.leb_le, !Z.geb_le. lia. }
  assert (forall d, p d = true
                    <-> encloses_box x y width height
                          (OCRResult.bounding_box (OCRResults.item_of d)))
    as Hq.
  { intros d. rewrite Hp. destruct d as [t c [bx by_ bw bh]]. reflexivity. }
  assert (forall d, In d (List.filter p (OCRResults.data self))
                    <-> In d (OCRResults.data self)
                        /\ encloses x y width height
                             (OCRResultDict.boundingBox d)) as Hin.
  { intros d. now rewrite filter_In, Hp. }
  assert (forall f,
            In f (map OCRResults.item_of
                    (List.filter p (OCRResults.data self)))
            <-> In f (map OCRResults.item_of (OCRResults.data self))
                /\ encloses_box x y width height (OCRResult.bounding_box f))
    as Hitems.
  { intros f. rewrite !in_map_iff. split.
    - intros (d & <- & Hd). apply filter_In in Hd as [Hd Hpd].
      split; [eauto | now apply Hq].
    - intros [(d & <- & Hd) He]. exists d. split; [reflexivity | ].
      apply filter_In. split; [exact Hd | now apply Hq]. }
  simpl OCRResults.data. simpl OCRResults.items.
  split; [ | split; [exact Hin | split; [ | split; [ | split; [ | split]]]]].
  - exists p. split; [apply init_keeps | exact Hp].
  - intros Hstep f. rewrite Hstep. apply Hitems.
  - intros Hstep text confidence H. rewrite Hstep in H. apply Hitems.
    split; [exact H | ]. unfold encloses_box. simpl. lia.
  - intros text confidence H. apply Hitems in H as [_ H].
    unfold encloses_box in H. simpl in H. lia.
  - intros text confidence H. apply Hin. split; [exact H | ].
    unfold encloses, record. simpl. lia.
  - intros text confidence H. apply Hin in H as [_ H].
    unfold encloses, record in H. simpl in H. lia.
Qed.

(** C5.  [minimum_confidence], [within], [containing], [exactly] and
    [filter] keep the records, and the fragments built from them, that
    satisfy their condition, in the order of the collection and each as
    often as it occurs.  [matching] does not: for the pattern [a] and a
    collection of the one fragment [ab], where [re.match] finds [a] at
    the start of [ab] but not [ab] at the start of [a], it returns a
    collection whose records are not those that match the pattern. *)
Theorem filters_preserve_order (str_lower : string -> string)
  (re_match : string -> string -> Z -> re_outcome) (self : OCRResults.t) :
  (forall threshold,
     keeps (fun d => float_ge (OCRResultDict.confidence d) threshold)
       self (OCRResults.minimum_confidence self threshold))
  /\ (forall x y width height,
        keeps
          (fun d =>
             let b := OCRResultDict.boundingBox d in
             (x <=? BoundingBoxDict.x b) && (y <=? BoundingBoxDict.y b)
             && (x + width >=? BoundingBoxDict.x b + BoundingBoxDict.width b)
             && (y + height >=? BoundingBoxDict.y b + BoundingBoxDict.height b))
          self (OCRResults.within self x y width height))
  /\ (forall (text : string) (lowercase : bool),
        keeps
          (fun d =>
             if lowercase
             then str_contains (str_lower text)
                    (str_lower (OCRResultDict.text d))
             else str_contains text (OCRResultDict.text d))
          self (OCRResults.containing str_lower self text lowercase))
  /\ (forall (text : string) (lowercase : bool),
        keeps
          (fun d =>
             if lowercase
             then (str_lower text =? str_lower (OCRResultDict.text d))%string
             else (text =? OCRResultDict.text d)%string)
          self (OCRResults.exactly str_lower self text lowercase))
  /\ (forall func, keeps func self (OCRResults.filter self func))
  /\ (re_match "a"%string "ab"%string 0 = re_Match ->
      re_match "ab"%string "a"%string 0 = re_None ->
      exists r,
        OCRResults.matching re_match
          (OCRResults.__init__ [record "ab" f_half 0 0 1 1]) "a" 0 = Ok r
        /\ OCRResults.items r = []
        /\ ~ restriction
               (fun d => re_truthy (re_match "a"%string (OCRResultDict.text d) 0))
               [record "ab" f_half 0 0 1 1] (OCRResults.data r)).
Proof.
  split; [ | split; [ | split; [ | split; [ | split]]]].
  - intros threshold. apply init_keeps.
  - intros x y width height. apply init_keeps.
  - intros text lowercase. unfold OCRResults.containing.
    destruct lowercase; apply init_keeps.
  - intros text lowercase. unfold OCRResults.exactly.
    destruct lowercase; apply init_keeps.
  - intros func. unfold OCRResults.filter.
    rewrite (filter_ext (fun item => func item) func) by reflexivity.
    apply init_keeps.
  - intros H1 H2. exists (OCRResults.__init__ []).
    split; [ | split; [reflexivity | ]].
    + unfold OCRResults.matching. simpl. unfold OCRResults.matching_cond.
      simpl. now rewrite H2.
    + intros (_ & _ & Hmax).
      specialize (Hmax [record "ab" f_half 0 0 1 1] (Subseq_refl _)).
      assert (Subseq [record "ab" f_half 0 0 1 1] []) as X.
      { apply Hmax. constructor; [ | constructor]. simpl. now rewrite H1. }
      inversion X.
Qed.

(** C6.  [minimum_confidence], [containing] and [exactly], applied a
    second time with the same arguments, return the collection the
    first application returned. *)
Theorem filters_idempotent (str_lower : string -> string)
  (self : OCRResults.t) (threshold : float) (text : string)
  (lowercase : bool) :
  OCRResults.minimum_confidence
    (OCRResults.minimum_confidence self threshold) threshold
  = OCRResults.minimum_confidence self threshold
  /\ OCRResults.containing str_lower
       (OCRResults.containing str_lower self text lowercase) text lowercase
     = OCRResults.containing str_lower self text lowercase
  /\ OCRResults.exactly str_lower
       (OCRResults.exactly str_lower self text lowercase) text lowercase
     = OCRResults.exactly str_lower self text lowercase.
Proof.
  unfold OCRResults.minimum_confidence, OCRResults.containing,
    OCRResults.exactly.
  destruct lowercase; simpl; rewrite !filter_twice; auto.
Qed.


(** C8.  [matching] raises on a well-formed collection: with the
    pattern [a] and a collection of one fragment whose text is an
    opening parenthesis, which [re.match] rejects as a pattern, the
    call ends in [re.error]. *)
Theorem matching_raises_on_fragment_text
  (re_match : string -> string -> Z -> re_outcome) :
  re_match "("%string "a"%string 0 = re_error ->
  OCRResults.matching re_match
    (OCRResults.__init__ [record "(" f_half 0 0 1 1]) "a" 0
  = Raise ReError.
Proof.
  intros H. unfold OCRResults.matching. simpl.
  unfold OCRResults.matching_cond. simpl. now rewrite H.
Qed.

(** C9.  [self[i]] returns the item at position [i], counting from the
    end for a negative [i], and raises [IndexError] exactly when [i] is
    outside [-len, len); [self[lo:hi]] returns the collection built
    from the records between the two bounds; a key of another type
    raises [TypeError]. *)
Theorem getitem_contract (self : OCRResults.t) :
  (forall i, - OCRResults.__len__ self <= i < OCRResults.__len__ self ->
     exists r, OCRResults.__getitem__ self (OCRResults.an_int i)
               = Ok (OCRResults.one r)
               /\ nth_error (OCRResults.items self)
                    (Z.to_nat (if i <? 0 then OCRResults.__len__ self + i
                               else i)) = Some r)
  /\ (forall i,
        OCRResults.__getitem__ self (OCRResults.an_int i) = Raise IndexError
        <-> i < - OCRResults.__len__ self \/ OCRResults.__len__ self <= i)
  /\ (forall lo hi,
        let len := Z.of_nat (List.length (OCRResults.data self)) in
        let s := slice_bound len lo 0 in
        let e := slice_bound len hi len in
        OCRResults.__getitem__ self (OCRResults.a_slice lo hi None)
        = Ok (OCRResults.several
                (OCRResults.__init__
                   (firstn (Z.to_nat (e - s))
                      (skipn (Z.to_nat s) (OCRResults.data self))))))
  /\ (forall type_name,
        OCRResults.__getitem__ self (OCRResults.an_object type_name)
        = Raise (TypeError ("Invalid argument type: " ++ type_name))).
Proof.
  unfold OCRResults.__len__. split; [ | split; [ | split]].
  - intros i Hi.
    destruct (list_getitem_cases (OCRResults.items self) i)
      as [[H (a & Ha & Hn)] | [[H (a & Ha & Hn)] | [H _]]]; try lia;
      exists a; simpl; rewrite Ha; (split; [reflexivity | ]);
      destruct (Z.ltb_spec i 0); try lia; exact Hn.
  - intros i. simpl.
    destruct (list_getitem_cases (OCRResults.items self) i)
      as [[H (a & Ha & _)] | [[H (a & Ha & _)] | [H Ha]]];
      rewrite Ha; simpl; split; intros X; try discriminate; try lia.
    reflexivity.
  - intros lo hi. cbv zeta. unfold OCRResults.__getitem__.
    rewrite list_getslice_plain. reflexivity.
  - reflexivity.
Qed.

(** C10.  In a collection of [n] items, for [1 <= k <= n], [self[-k]]
    raises nothing and returns the item at position [n - k]; [self[-1]]
    is the item [last()] returns. *)
Theorem negative_index_counts_from_end (self : OCRResults.t) (k : Z) :
  1 <= k <= OCRResults.__len__ self ->
  exists r,
    OCRResults.__getitem__ self (OCRResults.an_int (- k)) = Ok (OCRResults.one r)
    /\ nth_error (OCRResults.items self)
         (Z.to_nat (OCRResults.__len__ self - k)) = Some r
    /\ (k = 1 -> OCRResults.last self = Ok (Some r)).
Proof.
  unfold OCRResults.__len__. intros Hk.
  destruct (list_getitem_cases (OCRResults.items self) (- k))
    as [[H _] | [[_ (a & Ha & Hn)] | [H _]]]; try lia.
  exists a. simpl. rewrite Ha. split; [reflexivity | split].
  - exact Hn.
  - intros ->. change (- (1)) with (-1) in Ha.
    unfold OCRResults.last, OCRResults.__bool__.
    destruct (OCRResults.items self); [simpl in Hk; lia | ].
    now rewrite Ha.
Qed.

(** * The claims at concrete inputs *)

Example search_cats :
  map (fun p => (fst p, OCRResult.text (snd p),
                 BoundingBox.x (OCRResult.bounding_box (snd p))))
    (OCRResults.search_and_score lower_ascii cats "cat" f_zero false
       score_equal)
  = [(f_one, "cat"%string, 10); (f_one, "cat"%string, 50);
     (f_half, "bat"%string, 0)].
Proof. reflexivity. Qed.

Example search_cats_above_half :
  OCRResults.text
    (OCRResults.search lower_ascii cats "CAT" f_one true score_equal)
  = ["cat"%string; "cat"%string].
Proof. reflexivity. Qed.

Example hello_eq_str :
  OCRResult.__eq__ hello (OCRResult.a_str "hello") = true
  /\ OCRResult.__eq__ hello (OCRResult.a_str "Hello") = false.
Proof. split; reflexivity. Qed.

Example hello_eq_fields :
  OCRResult.__eq__ hello
    (OCRResult.an_OCRResult
       (OCRResult.mk "hello" f_half (BoundingBox.mk 3 4 20 10))) = true
  /\ OCRResult.__eq__ hello
       (OCRResult.an_OCRResult
          (OCRResult.mk "hello" f_one (BoundingBox.mk 3 4 20 10))) = false
  /\ OCRResult.__eq__ hello
       (OCRResult.an_OCRResult
          (OCRResult.mk "hello" f_half (BoundingBox.mk 3 4 20 11))) = false.
Proof. repeat split; reflexivity. Qed.

Example zeros_eq :
  OCRResult.__eq__ (OCRResult.mk "o" f_zero (BoundingBox.mk 0 0 1 1))
    (OCRResult.an_OCRResult
       (OCRResult.mk "o" f_neg_zero (BoundingBox.mk 0 0 1 1))) = true.
Proof. reflexivity. Qed.

Example cats_slice :
  OCRResults.__getitem__ cats (OCRResults.a_slice (Some 1) (Some 3) None)
  = Ok (OCRResults.several
          (OCRResults.__init__
             [record "cat" f_half 10 0 10 10; record "bat" f_half 0 0 10 10])).
Proof. reflexivity. Qed.

Example cats_slice_from_end :
  OCRResults.__getitem__ cats (OCRResults.a_slice (Some (-2)) None (Some (-1)))
  = Ok (OCRResults.several
          (OCRResults.__init__
             [record "cat" f_half 10 0 10 10; record "cat" f_half 50 0 10 10])).
Proof. reflexivity. Qed.

Example cats_index_out_of_range :
  OCRResults.__getitem__ cats (OCRResults.an_int 3) = Raise IndexError
  /\ OCRResults.__getitem__ cats (OCRResults.an_int (-4)) = Raise IndexError.
Proof. split; reflexivity. Qed.

Lemma search_results_ranked_witness :
  (forall d, In d (OCRResults.data cats) ->
             is_nan (OCRResultDict.confidence d) = false)
  /\ StronglySorted ranked
       (OCRResults.search_and_score lower_ascii cats "cat" f_zero false
          score_equal).
Proof.
  assert (forall d, In d (OCRResults.data cats) ->
                    is_nan (OCRResultDict.confidence d) = false) as H.
  { intros d Hd. simpl in Hd.
    destruct Hd as [<- | [<- | [<- | []]]]; reflexivity. }
  split; [exact H | ].
  exact (proj1 (search_results_ranked lower_ascii cats "cat" f_zero false
                  score_equal H)).
Defined.

Example nan_cats_one_run :
  let keys :=
    map (fun d => OCRResults.sort_key (f_one, d)) (OCRResults.data nan_cats) in
  map (fun ab => tuple_lt (snd ab) (fst ab)) (combine keys (tl keys))
  = [false; false].
Proof. reflexivity. Qed.

Example cats_within_items :
  OCRResults.text (OCRResults.within cats 0 0 30 10)
  = ["cat"%string; "bat"%string]
  /\ OCRResults.__len__ (OCRResults.within cats 0 0 30 10) = 2.
Proof. split; reflexivity. Qed.

Lemma filters_preserve_order_witness :
  re_match_literal "a" "ab" 0 = re_Match
  /\ re_match_literal "ab" "a" 0 = re_None
  /\ exists r,
       OCRResults.matching re_match_literal
         (OCRResults.__init__ [record "ab" f_half 0 0 1 1]) "a" 0 = Ok r
       /\ OCRResults.items r = []
       /\ ~ restriction
              (fun d => re_truthy (re_match_literal "a" (OCRResultDict.text d) 0))
              [record "ab" f_half 0 0 1 1] (OCRResults.data r).
Proof.
  split; [reflexivity | split; [reflexivity | ]].
  apply (filters_preserve_order lower_ascii re_match_literal cats);
    reflexivity.
Defined.

Lemma matching_swaps_pattern_and_text_witness :
  re_match_literal "a" "ab" 0 = re_Match
  /\ re_match_literal "ab" "a" 0 = re_None
  /\ OCRResults.matching re_match_literal
       (OCRResults.__init__ [record "ab" f_half 0 0 1 1]) "a" 0
     = Ok (OCRResults.__init__ [])
  /\ matching_as_specified re_match_literal
       (OCRResults.__init__ [record "ab" f_half 0 0 1 1]) "a" 0
     = [record "ab" f_half 0 0 1 1].
Proof.
  split; [reflexivity | split; [reflexivity | ]].
  apply (matching_swaps_pattern_and_text re_match_literal); reflexivity.
Defined.


Lemma matching_raises_on_fragment_text_witness :
  re_match_literal "(" "a" 0 = re_error
  /\ OCRResults.matching re_match_literal
       (OCRResults.__init__ [record "(" f_half 0 0 1 1]) "a" 0
     = Raise ReError.
Proof.
  split; [reflexivity | ].
  apply (matching_raises_on_fragment_text re_match_literal). reflexivity.
Defined.

Lemma negative_index_counts_from_end_witness :
  1 <= 1 <= OCRResults.__len__ cats
  /\ exists r,
       OCRResults.__getitem__ cats (OCRResults.an_int (- (1)))
       = Ok (OCRResults.one r)
       /\ nth_error (OCRResults.items cats)
            (Z.to_nat (OCRResults.__len__ cats - 1)) = Some r
       /\ (1 = 1 -> OCRResults.last cats = Ok (Some r)).
Proof.
  assert (1 <= 1 <= OCRResults.__len__ cats) as H
      by (unfold OCRResults.__len__, cats; simpl; lia).
  split; [exact H | ].
  exact (negative_index_counts_from_end cats 1 H).
Defined.

(** * Further properties of the module *)

(** ** BoundingBox and OCRResult *)

(** X1.  For a box of width and height at least 0, [center] lies in the
    box, and it is the midpoint up to the rounding of [//]: twice its
    offset from the corner falls short of the size by 0 or 1. *)
Theorem center_inside (b : BoundingBox.t) :
  0 <= BoundingBox.width b -> 0 <= BoundingBox.height b ->
  BoundingBox.x b <= fst (BoundingBox.center b)
                  <= BoundingBox.x b + BoundingBox.width b
  /\ BoundingBox.y b <= snd (BoundingBox.center b)
                     <= BoundingBox.y b + BoundingBox.height b
  /\ 0 <= BoundingBox.width b
          - 2 * (fst (BoundingBox.center b) - BoundingBox.x b) <= 1
  /\ 0 <= BoundingBox.height b
          - 2 * (snd (BoundingBox.center b) - BoundingBox.y b) <= 1.
Proof.
  intros Hw Hh. unfold BoundingBox.center. cbn [fst snd].
  pose proof (Z.div_mod (BoundingBox.width b) 2 ltac:(lia)) as Ew.
  pose proof (Z.mod_pos_bound (BoundingBox.width b) 2 ltac:(lia)) as Bw.
  pose proof (Z.div_mod (BoundingBox.height b) 2 ltac:(lia)) as Eh.
  pose proof (Z.mod_pos_bound (BoundingBox.height b) 2 ltac:(lia)) as Bh.
  lia.
Qed.

(** X2.  A record and the fragment built from it hold the same
    information: [data] of the fragment is the record, the fragment of
    [data] is the fragment, and the records of a collection built by
    [OCRResults(...)] are the [data] of its items. *)
Theorem data_round_trip (d : OCRResultDict.t) (r : OCRResult.t)
  (l : list OCRResultDict.t) :
  OCRResult.data (OCRResults.item_of d) = d
  /\ OCRResults.item_of (OCRResult.data r) = r
  /\ map OCRResult.data (OCRResults.items (OCRResults.__init__ l)) = l.
Proof.
  assert (forall d, OCRResult.data (OCRResults.item_of d) = d) as H.
  { intros [t c [x y w h]]. reflexivity. }
  split; [apply H | split].
  - destruct r as [t c [x y w h]]. reflexivity.
  - simpl. rewrite map_map. rewrite <- (map_id l) at 2.
    apply map_ext. exact H.
Qed.

Lemma float_eq_sym (a b : float) : float_eq a b = float_eq b a.
Proof.
  destruct (float_eq a b) eqn:E, (float_eq b a) eqn:E'; try reflexivity.
  - apply float_eq_spec in E. rewrite <- E'. symmetry. apply float_eq_spec.
    destruct E as [[-> H] | [H H']]; auto.
  - apply float_eq_spec in E'. rewrite <- E. apply float_eq_spec.
    destruct E' as [[-> H] | [H H']]; auto.
Qed.

Lemma float_eq_refl (a : float) : is_nan a = false -> float_eq a a = true.
Proof. intros H. apply float_eq_spec. auto. Qed.

Lemma float_eq_trans (a b c : float) :
  float_eq a b = true -> float_eq b c = true -> float_eq a c = true.
Proof.
  rewrite !float_eq_spec.
  intros [[-> H] | [H H']] [[-> G] | [G G']]; auto.
Qed.

(** X3.  On fragments [==] is symmetric and transitive, and a fragment
    whose confidence is a number equals itself. *)
Theorem OCRResult_eq_equivalence (f g h : OCRResult.t) :
  OCRResult.__eq__ f (OCRResult.an_OCRResult g)
  = OCRResult.__eq__ g (OCRResult.an_OCRResult f)
  /\ (OCRResult.__eq__ f (OCRResult.an_OCRResult g) = true ->
      OCRResult.__eq__ g (OCRResult.an_OCRResult h) = true ->
      OCRResult.__eq__ f (OCRResult.an_OCRResult h) = true)
  /\ (is_nan (OCRResult.confidence f) = false ->
      OCRResult.__eq__ f (OCRResult.an_OCRResult f) = true).
Proof.
  unfold OCRResult.__eq__, OCRResultDict.eq, BoundingBoxDict.eq,
    OCRResult.data. simpl. split; [ | split].
  - rewrite (float_eq_sym (OCRResult.confidence f)), String.eqb_sym.
    rewrite !(Z.eqb_sym (_ (OCRResult.bounding_box f))). reflexivity.
  - rewrite !andb_true_iff, !String.eqb_eq, !Z.eqb_eq.
    intros [[T1 E1] [[[X1 Y1] W1] H1]] [[T2 E2] [[[X2 Y2] W2] H2]].
    repeat split; try congruence. eauto using float_eq_trans.
  - intros H. rewrite !andb_true_iff, String.eqb_eq, !Z.eqb_eq.
    repeat split; auto using float_eq_refl.
Qed.

(** ** Filters *)

Lemma Subseq_map {A B : Type} (f : A -> B) (s l : list A) :
  Subseq s l -> Subseq (map f s) (map f l).
Proof. induction 1; simpl; constructor; assumption. Qed.

Lemma init_selects (self : OCRResults.t) (p : OCRResultDict.t -> bool) :
  in_step self ->
  selects self (OCRResults.__init__ (List.filter p (OCRResults.data self))).
Proof.
  intros H. unfold selects, in_step, OCRResults.__len__ in *. simpl.
  rewrite H. split; [reflexivity | ].
  pose proof (Subseq_map OCRResults.item_of _ _
                (Subseq_filter p (OCRResults.data self))) as S.
  split; [exact S | ]. apply Subseq_length in S. lia.
Qed.

(** X4.  In a collection whose two views are in step, each filter
    returns a collection whose views are in step and whose items are
    items of the input, in their order; it is no longer than the
    input.  [matching] does so whenever it returns. *)
Theorem filters_select_items (str_lower : string -> string)
  (re_match : string -> string -> Z -> re_outcome) (self : OCRResults.t) :
  in_step self ->
  (forall threshold,
     selects self (OCRResults.minimum_confidence self threshold))
  /\ (forall x y width height,
        selects self (OCRResults.within self x y width height))
  /\ (forall text lowercase,
        selects self (OCRResults.containing str_lower self text lowercase))
  /\ (forall text lowercase,
        selects self (OCRResults.exactly str_lower self text lowercase))
  /\ (forall func, selects self (OCRResults.filter self func))
  /\ (forall pattern flag r,
        OCRResults.matching re_match self pattern flag = Ok r ->
        selects self r).
Proof.
  intros H. split; [ | split; [ | split; [ | split; [ | split]]]].
  - intros threshold. now apply init_selects.
  - intros x y width height. now apply init_selects.
  - intros text lowercase. unfold OCRResults.containing.
    destruct lowercase; now apply init_selects.
  - intros text lowercase. unfold OCRResults.exactly.
    destruct lowercase; now apply init_selects.
  - intros func. now apply init_selects.
  - intros pattern flag r E.
    pose proof (matching_cases re_match self pattern flag) as M.
    rewrite E in M. destruct M as [-> _]. now apply init_selects.
Qed.

Lemma prefix_app (n h : string) :
  String.prefix n h = true <-> exists post, h = (n ++ post)%string.
Proof.
  revert h. induction n as [|c n IH]; intros h; simpl.
  - split; [intros _; now exists h | intros _; now destruct h].
  - destruct h as [|c' h].
    + split; [discriminate | intros [post H]; discriminate].
    + simpl. destruct (ascii_dec c c') as [<- | N].
      * rewrite IH. split; intros [post H]; exists post; congruence.
      * split; [discriminate | intros [post H]; congruence].
Qed.

Lemma str_contains_app (needle hay : string) :
  str_contains needle hay = true
  <-> exists pre post, hay = (pre ++ needle ++ post)%string.
Proof.
  induction hay as [|c hay IH]; cbn [str_contains].
  - destruct (String.prefix needle EmptyString) eqn:E.
    + split; [intros _ | reflexivity].
      apply prefix_app in E as [post ->]. now exists EmptyString, post.
    + split; [discriminate | ].
      intros ([|c pre] & post & H); [ | discriminate].
      simpl in H. rewrite <- E. apply prefix_app. eauto.
  - destruct (String.prefix needle (String c hay)) eqn:E.
    + split; [intros _ | reflexivity].
      apply prefix_app in E as [post ->]. now exists EmptyString, post.
    + rewrite IH. split.
      * intros (pre & post & ->). now exists (String c pre), post.
      * intros ([|c' pre] & post & H).
        -- simpl in H. exfalso.
           assert (String.prefix needle (String c hay) = true) as X
               by (apply prefix_app; eauto).
           congruence.
        -- injection H as -> ->. eauto.
Qed.

(** X5.  [text in self] holds exactly when the text of some item is
    [pre ++ text ++ post]; in a collection whose views are in step it
    holds exactly when [containing(text)] is not empty. *)
Theorem contains_substring (str_lower : string -> string)
  (self : OCRResults.t) (text : string) :
  (OCRResults.__contains__ self text = true
   <-> exists item pre post,
         In item (OCRResults.items self)
         /\ OCRResult.text item = (pre ++ text ++ post)%string)
  /\ (in_step self ->
      OCRResults.__contains__ self text
      = OCRResults.exists_ (OCRResults.containing str_lower self text false)).
Proof.
  split.
  - unfold OCRResults.__contains__. rewrite existsb_exists. split.
    + intros (item & Hin & H). apply str_contains_app in H as (pre & post & H).
      eauto.
    + intros (item & pre & post & Hin & H). exists item. split; [exact Hin | ].
      apply str_contains_app. eauto.
  - intros H. unfold OCRResults.__contains__, OCRResults.exists_,
      OCRResults.containing, in_step in *. simpl. rewrite H. clear H.
    induction (OCRResults.data self) as [|d l IH]; simpl; [reflexivity | ].
    destruct (str_contains text (OCRResultDict.text d)); simpl;
      [reflexivity | exact IH].
Qed.

Lemma filter_and {A : Type} (p q : A -> bool) (l : list A) :
  List.filter q (List.filter p l) = List.filter (fun a => p a && q a) l.
Proof.
  induction l as [|a l IH]; simpl; [reflexivity | ].
  destruct (p a) eqn:E; simpl; [ | exact IH].
  destruct (q a); simpl; now rewrite IH.
Qed.

Lemma filter_comm {A : Type} (p q : A -> bool) (l : list A) :
  List.filter q (List.filter p l) = List.filter p (List.filter q l).
Proof.
  rewrite !filter_and. apply filter_ext. intros a. apply andb_comm.
Qed.

Lemma filter_implied {A : Type} (p q : A -> bool) (l : list A) :
  (forall a, p a = true -> q a = true) ->
  List.filter q (List.filter p l) = List.filter p l.
Proof.
  intros H. rewrite filter_and. apply filter_ext. intros a.
  destruct (p a) eqn:E; [now rewrite H | reflexivity].
Qed.

Lemma filter_absorbs {A : Type} (p q : A -> bool) (l : list A) :
  (forall a, p a = true -> q a = true) ->
  List.filter p (List.filter q l) = List.filter p l.
Proof. intros H. rewrite filter_comm. now apply filter_implied. Qed.

Lemma within_eq (self : OCRResults.t) (x y width height : Z) :
  OCRResults.within self x y width height
  = OCRResults.__init__
      (List.filter (within_cond x y width height) (OCRResults.data self)).
Proof. reflexivity. Qed.

(** X6.  Filters may be chained in either order: two calls of [filter]
    commute and amount to one call with both conditions, and
    [minimum_confidence], [within], [containing] and [exactly] commute
    with one another. *)
Theorem filters_commute (str_lower : string -> string)
  (self : OCRResults.t) (f g : OCRResultDict.t -> bool)
  (threshold : float) (x y width height : Z) (text text' : string)
  (lowercase lowercase' : bool) :
  OCRResults.filter (OCRResults.filter self f) g
  = OCRResults.filter (OCRResults.filter self g) f
  /\ OCRResults.filter (OCRResults.filter self f) g
     = OCRResults.filter self (fun d => f d && g d)
  /\ OCRResults.within (OCRResults.minimum_confidence self threshold)
       x y width height
     = OCRResults.minimum_confidence
         (OCRResults.within self x y width height) threshold
  /\ OCRResults.containing str_lower
       (OCRResults.minimum_confidence self threshold) text lowercase
     = OCRResults.minimum_confidence
         (OCRResults.containing str_lower self text lowercase) threshold
  /\ OCRResults.containing str_lower
       (OCRResults.within self x y width height) text lowercase
     = OCRResults.within
         (OCRResults.containing str_lower self text lowercase)
         x y width height
  /\ OCRResults.exactly str_lower
       (OCRResults.containing str_lower self text lowercase) text' lowercase'
     = OCRResults.containing str_lower
         (OCRResults.exactly str_lower self text' lowercase') text lowercase.
Proof.
  unfold OCRResults.filter, OCRResults.minimum_confidence, OCRResults.within,
    OCRResults.containing, OCRResults.exactly.
  destruct lowercase, lowercase'; simpl;
    repeat split; f_equal; rewrite ?filter_and;
    apply filter_ext; intros a; try reflexivity; apply andb_comm.
Qed.

Lemma float_le_not_nan (a b : float) :
  float_le a b = true -> is_nan a = false /\ is_nan b = false.
Proof.
  unfold float_le, SFleb.
  destruct a, b; simpl; intros; try discriminate; auto.
Qed.

Lemma float_ge_le_trans (c t1 t2 : float) :
  float_ge c t2 = true -> float_le t1 t2 = true -> float_ge c t1 = true.
Proof.
  intros H1 H2.
  destruct (float_ge_not_nan _ _ H1) as [Nc N2].
  destruct (float_le_not_nan _ _ H2) as [N1 _].
  apply (float_ge_rank c t2 Nc N2) in H1.
  apply (float_le_rank t1 t2 N1 N2) in H2.
  apply (float_ge_rank c t1 Nc N1).
  destruct (float_rank c) as [[c1 c2] c3], (float_rank t1) as [[p1 p2] p3],
    (float_rank t2) as [[q1 q2] q3].
  unfold lex3_lt in *. lia.
Qed.

(** X7.  A higher threshold absorbs a lower one: where [t1 <= t2],
    [minimum_confidence(t1)] followed by [minimum_confidence(t2)], in
    either order, is [minimum_confidence(t2)]. *)
Theorem minimum_confidence_absorbs (self : OCRResults.t) (t1 t2 : float) :
  float_le t1 t2 = true ->
  OCRResults.minimum_confidence (OCRResults.minimum_confidence self t1) t2
  = OCRResults.minimum_confidence self t2
  /\ OCRResults.minimum_confidence (OCRResults.minimum_confidence self t2) t1
     = OCRResults.minimum_confidence self t2.
Proof.
  intros H. unfold OCRResults.minimum_confidence. simpl.
  split; f_equal.
  - apply filter_absorbs. intros d Hd. eauto using float_ge_le_trans.
  - apply filter_implied. intros d Hd. eauto using float_ge_le_trans.
Qed.

(** X8.  A rectangle inside another absorbs it: where the rectangle
    [(x1, y1, w1, h1)] lies in [(x2, y2, w2, h2)], [within] of the outer
    one followed by [within] of the inner one is [within] of the inner
    one. *)
Theorem within_nested (self : OCRResults.t) (x1 y1 w1 h1 x2 y2 w2 h2 : Z) :
  x2 <= x1 -> y2 <= y1 -> x1 + w1 <= x2 + w2 -> y1 + h1 <= y2 + h2 ->
  OCRResults.within (OCRResults.within self x2 y2 w2 h2) x1 y1 w1 h1
  = OCRResults.within self x1 y1 w1 h1.
Proof.
  intros Hx Hy Hw Hh. rewrite !within_eq. simpl. f_equal.
  apply filter_absorbs. intros d. unfold within_cond.
  rewrite !andb_true_iff, !Z.leb_le, !Z.geb_le. lia.
Qed.

Lemma prefix_refl (s : string) : String.prefix s s = true.
Proof.
  apply prefix_app. exists EmptyString. induction s; simpl; congruence.
Qed.

Lemma str_contains_refl (s : string) : str_contains s s = true.
Proof. destruct s; cbn [str_contains]; now rewrite prefix_refl. Qed.

(** X9.  An exact match is a containing match: [containing] with the
    same text and flag leaves the result of [exactly] as it is, and the
    records of [exactly] are among those of [containing], in order. *)
Theorem exactly_within_containing (str_lower : string -> string)
  (self : OCRResults.t) (text : string) (lowercase : bool) :
  OCRResults.containing str_lower
    (OCRResults.exactly str_lower self text lowercase) text lowercase
  = OCRResults.exactly str_lower self text lowercase
  /\ Subseq
       (OCRResults.data (OCRResults.exactly str_lower self text lowercase))
       (OCRResults.data (OCRResults.containing str_lower self text lowercase)).
Proof.
  unfold OCRResults.containing, OCRResults.exactly.
  destruct lowercase; simpl.
  - assert (forall d,
              (str_lower text =? str_lower (OCRResultDict.text d))%string = true
              -> str_contains (str_lower text)
                   (str_lower (OCRResultDict.text d)) = true) as H.
    { intros d E. apply String.eqb_eq in E. rewrite <- E.
      apply str_contains_refl. }
    split.
    + f_equal. now apply filter_implied.
    + rewrite <- (filter_implied _ _ (OCRResults.data self) H).
      rewrite filter_comm. apply Subseq_filter.
  - assert (forall d,
              (text =? OCRResultDict.text d)%string = true
              -> str_contains text (OCRResultDict.text d) = true) as H.
    { intros d E. apply String.eqb_eq in E. rewrite <- E.
      apply str_contains_refl. }
    split.
    + f_equal. now apply filter_implied.
    + rewrite <- (filter_implied _ _ (OCRResults.data self) H).
      rewrite filter_comm. apply Subseq_filter.
Qed.

(** ** first and last *)

(** X10.  [first] and [last] never raise: they return the item at
    position 0 and at the last position, [None] exactly for a
    collection without items, and what they return is what [self[0]]
    and [self[-1]] return. *)
Theorem first_last_edges (self : OCRResults.t) :
  OCRResults.first self = Ok (nth_error (OCRResults.items self) 0)
  /\ OCRResults.last self
     = Ok (nth_error (OCRResults.items self)
             (List.length (OCRResults.items self) - 1))
  /\ (OCRResults.first self = Ok None <-> OCRResults.empty self = true)
  /\ (OCRResults.last self = Ok None <-> OCRResults.empty self = true)
  /\ (forall a, OCRResults.first self = Ok (Some a)
                <-> OCRResults.__getitem__ self (OCRResults.an_int 0)
                    = Ok (OCRResults.one a))
  /\ (forall a, OCRResults.last self = Ok (Some a)
                <-> OCRResults.__getitem__ self (OCRResults.an_int (-1))
                    = Ok (OCRResults.one a)).
Proof.
  assert (OCRResults.last self
          = Ok (nth_error (OCRResults.items self)
                  (List.length (OCRResults.items self) - 1))) as Hlast.
  { destruct (last_returns self) as (o & E & Hnone & Hsome). rewrite E.
    f_equal. destruct o as [r|].
    - symmetry. now apply Hsome.
    - destruct Hnone as [Hnone _]. rewrite (Hnone eq_refl). reflexivity. }
  unfold OCRResults.first, OCRResults.last, OCRResults.__bool__,
    OCRResults.empty, OCRResults.__getitem__ in *.
  destruct (OCRResults.items self) as [|r l] eqn:E.
  - repeat split; intros; try discriminate; reflexivity.
  - split; [reflexivity | split; [exact Hlast | ]].
    destruct (list_getitem (r :: l) (-1)) as [b|e] eqn:G; simpl in *.
    + repeat split; intros X; try discriminate; congruence.
    + discriminate.
Qed.

(** ** The order of the search *)

Section SortedMore.
Context {A K : Type}.
Variable lt : K -> K -> bool.
Variable key : A -> K.
Variable good : A -> Prop.

Hypothesis lt_asym : forall a b, good a -> good b ->
  lt (key a) (key b) = true -> lt (key b) (key a) = false.
Hypothesis le_trans : forall a b c, good a -> good b -> good c ->
  lt (key b) (key a) = false -> lt (key c) (key b) = false ->
  lt (key c) (key a) = false.

Lemma sorted_fixed (l : list A) :
  Forall good l ->
  StronglySorted (fun a b => lt (key b) (key a) = false) l ->
  sorted lt key l = l.
Proof.
  intros Hg Hs. symmetry.
  apply (sorted_unique lt key good lt_asym le_trans); auto.
Qed.

Lemma Permutation_filter_same (p : A -> bool) (l l' : list A) :
  Permutation l l' -> Permutation (List.filter p l) (List.filter p l').
Proof.
  induction 1 as [|a l l' H IH|a b l|l l' l'' H IH H' IH']; simpl.
  - constructor.
  - destruct (p a); [now constructor | assumption].
  - destruct (p a), (p b); try reflexivity. apply perm_swap.
  - now transitivity (List.filter p l').
Qed.

Lemma StronglySorted_filter (R : A -> A -> Prop) (p : A -> bool)
  (l : list A) :
  StronglySorted R l -> StronglySorted R (List.filter p l).
Proof.
  induction 1 as [|a l Hs IH Ha]; simpl; [constructor | ].
  destruct (p a); [ | assumption].
  constructor; [assumption | ].
  rewrite Forall_forall in *. intros b Hb. apply filter_In in Hb as [Hb _].
  auto.
Qed.

(** Sorting and selecting commute. *)
Lemma sorted_filter (p : A -> bool) (l : list A) :
  Forall good l ->
  sorted lt key (List.filter p l) = List.filter p (sorted lt key l).
Proof.
  intros Hg. symmetry.
  apply (sorted_unique lt key good lt_asym le_trans).
  - apply Forall_forall. intros a Ha. apply filter_In in Ha as [Ha _].
    rewrite Forall_forall in Hg. auto.
  - apply Permutation_filter_same. apply sorted_perm.
  - apply StronglySorted_filter.
    now apply (sorted_ordered lt key good).
  - intros k Hk. rewrite filter_comm.
    rewrite (sorted_stable lt key good le_trans k l Hk Hg).
    apply filter_comm.
Qed.

End SortedMore.

Lemma filter_of_map {A B : Type} (f : A -> B) (p : B -> bool) (l : list A) :
  List.filter p (map f l) = map f (List.filter (fun a => p (f a)) l).
Proof.
  induction l as [|a l IH]; simpl; [reflexivity | ].
  destruct (p (f a)); simpl; now rewrite IH.
Qed.

Section SearchOrder.
Variable str_lower : string -> string.
Variables (query : string) (lowercase : bool).
Variable score_func : string -> string -> float.

Let score (d : OCRResultDict.t) : float :=
  score_of str_lower query lowercase score_func (OCRResultDict.text d).

Let scored (d : OCRResultDict.t) : float * OCRResultDict.t := (score d, d).

Let good (p : float * OCRResultDict.t) : Prop :=
  key_ok (OCRResults.sort_key p).

Lemma scored_good (threshold : float) (l : list OCRResultDict.t) :
  (forall d, In d l -> is_nan (OCRResultDict.confidence d) = false) ->
  Forall good
    (map scored (List.filter (fun d => float_ge (score d) threshold) l)).
Proof.
  intros H. apply Forall_forall. intros p Hp.
  apply in_map_iff in Hp as (d & <- & Hd).
  apply filter_In in Hd as [Hd Hge].
  apply float_ge_not_nan in Hge as [Hs _].
  unfold good, scored, OCRResults.sort_key, key_ok. simpl.
  rewrite float_neg_not_nan. auto.
Qed.

Lemma good_asym (a b : float * OCRResultDict.t) :
  good a -> good b ->
  tuple_lt (OCRResults.sort_key a) (OCRResults.sort_key b) = true ->
  tuple_lt (OCRResults.sort_key b) (OCRResults.sort_key a) = false.
Proof. apply tuple_lt_asym. Qed.

Lemma good_trans (a b c : float * OCRResultDict.t) :
  good a -> good b -> good c ->
  tuple_lt (OCRResults.sort_key b) (OCRResults.sort_key a) = false ->
  tuple_lt (OCRResults.sort_key c) (OCRResults.sort_key b) = false ->
  tuple_lt (OCRResults.sort_key c) (OCRResults.sort_key a) = false.
Proof. apply tuple_le_trans. Qed.

Lemma search_of_search (self : OCRResults.t) (threshold : float) :
  (forall d, In d (OCRResults.data self) ->
             is_nan (OCRResultDict.confidence d) = false) ->
  OCRResults._search_and_score str_lower
    (OCRResults.search str_lower self query threshold lowercase score_func)
    query threshold lowercase score_func
  = OCRResults._search_and_score str_lower self query threshold lowercase
      score_func.
Proof.
  intros Hconf.
  pose proof (scored_good threshold _ Hconf) as Hgood.
  rewrite (_search_and_score_eq str_lower query threshold lowercase score_func
             (OCRResults.search _ _ _ _ _ _)).
  unfold OCRResults.search. simpl OCRResults.data.
  rewrite (_search_and_score_eq str_lower query threshold lowercase score_func
             self).
  set (m := map scored
              (List.filter (fun d => float_ge (score d) threshold)
                 (OCRResults.data self))) in *.
  pose proof (sorted_perm tuple_lt OCRResults.sort_key m) as Hperm.
  set (r := sorted tuple_lt OCRResults.sort_key m) in *.
  change (sorted tuple_lt OCRResults.sort_key
            (map scored
               (List.filter (fun d => float_ge (score d) threshold)
                  (map snd r))) = r).
  assert (Forall (fun p => p = scored (snd p)
                           /\ float_ge (score (snd p)) threshold = true) r)
    as Hr.
  { apply (Permutation_Forall (Permutation_sym Hperm)).
    apply Forall_forall. intros p Hp. subst m.
    apply in_map_iff in Hp as (d & <- & Hd).
    apply filter_In in Hd as [_ Hd]. auto. }
  assert (map scored
            (List.filter (fun d => float_ge (score d) threshold) (map snd r))
          = r) as ->.
  { clear Hperm. induction Hr as [|p r [Hp Hs] Hr IH]; [reflexivity | ].
    simpl. rewrite Hs. simpl. rewrite IH. now rewrite <- Hp. }
  apply (sorted_fixed tuple_lt OCRResults.sort_key good good_asym good_trans).
  - apply (Permutation_Forall (Permutation_sym Hperm)). exact Hgood.
  - apply (sorted_ordered tuple_lt OCRResults.sort_key good good_asym
             good_trans). exact Hgood.
Qed.

Lemma search_refined (self : OCRResults.t) (t1 t2 : float) :
  float_le t1 t2 = true ->
  (forall d, In d (OCRResults.data self) ->
             is_nan (OCRResultDict.confidence d) = false) ->
  OCRResults._search_and_score str_lower self query t2 lowercase score_func
  = List.filter (fun p => float_ge (fst p) t2)
      (OCRResults._search_and_score str_lower self query t1 lowercase
         score_func).
Proof.
  intros Ht Hconf. rewrite !_search_and_score_eq.
  change (sorted tuple_lt OCRResults.sort_key
            (map scored
               (List.filter (fun d => float_ge (score d) t2)
                  (OCRResults.data self)))
          = List.filter (fun p => float_ge (fst p) t2)
              (sorted tuple_lt OCRResults.sort_key
                 (map scored
                    (List.filter (fun d => float_ge (score d) t1)
                       (OCRResults.data self))))).
  rewrite <- (sorted_filter tuple_lt OCRResults.sort_key good good_asym
                good_trans) by now apply scored_good.
  f_equal. rewrite filter_of_map. f_equal. simpl.
  symmetry. apply filter_absorbs.
  intros d Hd. eauto using float_ge_le_trans.
Qed.

End SearchOrder.

(** X11.  The sort of [_search_and_score] is stable: where every
    confidence is a number, the pairs that tie with a given pair on the
    whole key come out in the order of the collection. *)
Theorem search_ties_keep_order (str_lower : string -> string)
  (self : OCRResults.t) (query : string) (threshold : float)
  (lowercase : bool) (score_func : string -> string -> float)
  (k : float * OCRResultDict.t) :
  (forall d, In d (OCRResults.data self) ->
             is_nan (OCRResultDict.confidence d) = false) ->
  key_ok (OCRResults.sort_key k) ->
  List.filter (ties k)
    (OCRResults._search_and_score str_lower self query threshold lowercase
       score_func)
  = List.filter (ties k)
      (map (fun d => (score_of str_lower query lowercase score_func
                        (OCRResultDict.text d), d))
         (List.filter
            (fun d => float_ge (score_of str_lower query lowercase score_func
                                  (OCRResultDict.text d)) threshold)
            (OCRResults.data self))).
Proof.
  intros Hconf Hk. rewrite _search_and_score_eq.
  apply (sorted_stable tuple_lt OCRResults.sort_key
           (fun p => key_ok (OCRResults.sort_key p)) good_trans k _ Hk).
  apply (scored_good str_lower query lowercase score_func threshold _ Hconf).
Qed.

(** X12.  Searching the result of a search again, with the same
    arguments, changes nothing: where every confidence is a number,
    [search] and [search_and_score] of the result return the result and
    its pairs. *)
Theorem search_idempotent (str_lower : string -> string)
  (self : OCRResults.t) (query : string) (threshold : float)
  (lowercase : bool) (score_func : string -> string -> float) :
  (forall d, In d (OCRResults.data self) ->
             is_nan (OCRResultDict.confidence d) = false) ->
  OCRResults.search str_lower
    (OCRResults.search str_lower self query threshold lowercase score_func)
    query threshold lowercase score_func
  = OCRResults.search str_lower self query threshold lowercase score_func
  /\ OCRResults.search_and_score str_lower
       (OCRResults.search str_lower self query threshold lowercase score_func)
       query threshold lowercase score_func
     = OCRResults.search_and_score str_lower self query threshold lowercase
         score_func.
Proof.
  intros H.
  pose proof (search_of_search str_lower query lowercase score_func self
                threshold H) as E.
  split.
  - unfold OCRResults.search at 1. rewrite E. reflexivity.
  - rewrite !search_and_score_eq. now rewrite E.
Qed.

(** X13.  Raising the threshold only removes records: where
    [t1 <= t2] and every confidence is a number, the search with
    threshold [t2] returns the pairs of the search with threshold [t1]
    whose score is at least [t2], in the same order, and likewise for
    the records of [search]. *)
Theorem search_threshold_refines (str_lower : string -> string)
  (self : OCRResults.t) (query : string) (t1 t2 : float)
  (lowercase : bool) (score_func : string -> string -> float) :
  float_le t1 t2 = true ->
  (forall d, In d (OCRResults.data self) ->
             is_nan (OCRResultDict.confidence d) = false) ->
  OCRResults.search_and_score str_lower self query t2 lowercase score_func
  = List.filter (fun p => float_ge (fst p) t2)
      (OCRResults.search_and_score str_lower self query t1 lowercase
         score_func)
  /\ OCRResults.data
       (OCRResults.search str_lower self query t2 lowercase score_func)
     = List.filter
         (fun d => float_ge (score_of str_lower query lowercase score_func
                               (OCRResultDict.text d)) t2)
         (OCRResults.data
            (OCRResults.search str_lower self query t1 lowercase score_func)).
Proof.
  intros Ht H.
  pose proof (search_refined str_lower query lowercase score_func self t1 t2
                Ht H) as E.
  split.
  - rewrite !search_and_score_eq, E, filter_of_map. reflexivity.
  - unfold OCRResults.search. simpl. rewrite E.
    pose proof (_search_and_score_perm str_lower query t1 lowercase score_func
                  self) as Hperm.
    assert (Forall
              (fun p => fst p = score_of str_lower query lowercase score_func
                                  (OCRResultDict.text (snd p)))
              (OCRResults._search_and_score str_lower self query t1 lowercase
                 score_func)) as Hr.
    { apply (Permutation_Forall (Permutation_sym Hperm)).
      apply Forall_forall. intros p Hp.
      apply in_map_iff in Hp as (d & <- & _). reflexivity. }
    clear E Hperm.
    induction Hr as [|p r Hp Hr IH]; [reflexivity | ].
    cbn [List.filter map]. rewrite <- Hp.
    destruct (float_ge (fst p) t2); cbn [map]; now rewrite IH.
Qed.

(** X15.  A collection without records gives nothing to every filter
    and search, and a collection without items gives [None] to [first]
    and [last], [IndexError] to every integer index and [False] to
    every membership test; none of these raises. *)
Theorem nothing_from_nothing (str_lower : string -> string)
  (re_match : string -> string -> Z -> re_outcome) (self : OCRResults.t) :
  (OCRResults.data self = [] ->
   (forall threshold,
      OCRResults.minimum_confidence self threshold = OCRResults.__init__ [])
   /\ (forall x y width height,
         OCRResults.within self x y width height = OCRResults.__init__ [])
   /\ (forall text lowercase,
         OCRResults.containing str_lower self text lowercase
         = OCRResults.__init__ [])
   /\ (forall text lowercase,
         OCRResults.exactly str_lower self text lowercase
         = OCRResults.__init__ [])
   /\ (forall pattern flag,
         OCRResults.matching re_match self pattern flag
         = Ok (OCRResults.__init__ []))
   /\ (forall func, OCRResults.filter self func = OCRResults.__init__ [])
   /\ (forall query threshold lowercase score_func,
         OCRResults.search str_lower self query threshold lowercase
           score_func = OCRResults.__init__ []
         /\ OCRResults.search_and_score str_lower self query threshold
              lowercase score_func = [])
   /\ (forall lo hi,
         OCRResults.__getitem__ self (OCRResults.a_slice lo hi None)
         = Ok (OCRResults.several (OCRResults.__init__ []))))
  /\ (OCRResults.items self = [] ->
      OCRResults.first self = Ok None
      /\ OCRResults.last self = Ok None
      /\ (forall i, OCRResults.__getitem__ self (OCRResults.an_int i)
                    = Raise IndexError)
      /\ (forall text, OCRResults.__contains__ self text = false)
      /\ OCRResults.__len__ self = 0).
Proof.
  split.
  - intros E.
    assert (forall lo hi,
              OCRResults.__getitem__ self (OCRResults.a_slice lo hi None)
              = Ok (OCRResults.several (OCRResults.__init__ []))) as Hs.
    { intros lo hi. unfold OCRResults.__getitem__.
      rewrite list_getslice_plain, E. simpl.
      now rewrite skipn_nil, firstn_nil. }
    unfold OCRResults.minimum_confidence, OCRResults.within,
      OCRResults.containing, OCRResults.exactly, OCRResults.matching,
      OCRResults.filter, OCRResults.search, OCRResults.search_and_score,
      OCRResults._search_and_score.
    rewrite E. simpl.
    repeat split; try reflexivity; try (destruct lowercase; reflexivity).
    apply Hs.
  - intros E.
    unfold OCRResults.first, OCRResults.last, OCRResults.__bool__,
      OCRResults.__getitem__, OCRResults.__contains__, OCRResults.__len__.
    rewrite E. simpl.
    split; [reflexivity | split; [reflexivity | split; [ | now split]]].
    intros i. unfold list_getitem. simpl.
    destruct (Z.ltb_spec i 0).
    + rewrite Z.add_0_r. destruct (Z.ltb_spec i 0); [reflexivity | lia].
    + destruct (Z.ltb_spec i 0); [lia | ].
      destruct (Z.leb_spec 0 i); [reflexivity | lia].
Qed.

(** ** _parse_args *)

Ltac options_facts :=
  repeat match goal with
         | H : _ /\ _ |- _ => destruct H
         | H : exists _, _ |- _ => destruct H
         | H : KeyError _ = KeyError _ |- _ => injection H as <-
         | H : ?a = ?a -> _ |- _ => specialize (H eq_refl)
         end;
  try discriminate; try congruence; auto; try (eexists; reflexivity).

Ltac options_cases o :=
  destruct o as [fa la co cw cwf h1 h2];
  destruct fa as [[]|], la as [la|], co as [[]|], cw as [cw|], cwf as [cwf|],
    h1, h2; cbn.

(** X16.  [_parse_args] raises [KeyError] exactly when a hyphenated key
    is given without the key it stands for: [custom-words] without
    [custom_words], or else [custom-words-file] without
    [custom_words_file].  It raises for no other key and returns the
    arguments otherwise. *)
Theorem parse_args_key_error (options : OCROptions.t) :
  (_parse_args options = KeyError "custom_words"
   <-> OCROptions.custom_words options = None
       /\ OCROptions.has_custom_words_hyphen options = true)
  /\ (_parse_args options = KeyError "custom_words_file"
      <-> (OCROptions.custom_words options = None ->
           OCROptions.has_custom_words_hyphen options = false)
          /\ OCROptions.custom_words_file options = None
          /\ OCROptions.has_custom_words_file_hyphen options = true)
  /\ (forall key, _parse_args options = KeyError key ->
                  key = "custom_words"%string
                  \/ key = "custom_words_file"%string)
  /\ ((exists args, _parse_args options = arguments args)
      <-> (OCROptions.custom_words options = None ->
           OCROptions.has_custom_words_hyphen options = false)
          /\ (OCROptions.custom_words_file options = None ->
              OCROptions.has_custom_words_file_hyphen options = false)).
Proof.
  options_cases options; repeat split; intros; options_facts.
Qed.

(** X17.  The hyphenated keys are tested and never read: the arguments
    [_parse_args] returns are those it returns without these keys, and
    without them it never raises.  A flag given as [False] counts as a
    flag not given. *)
Theorem parse_args_spellings (options : OCROptions.t) :
  (forall args, _parse_args options = arguments args ->
                _parse_args (without_hyphenated options) = arguments args)
  /\ (exists args, _parse_args (without_hyphenated options) = arguments args)
  /\ (forall l c cw cwf h1 h2,
        _parse_args (OCROptions.mk (Some false) l c cw cwf h1 h2)
        = _parse_args (OCROptions.mk None l c cw cwf h1 h2))
  /\ (forall f l cw cwf h1 h2,
        _parse_args (OCROptions.mk f l (Some false) cw cwf h1 h2)
        = _parse_args (OCROptions.mk f l None cw cwf h1 h2)).
Proof.
  split; [ | split; [ | split]].
  - intros args. options_cases options; intros; options_facts.
  - options_cases options; options_facts.
  - reflexivity.
  - reflexivity.
Qed.

(** X18.  [_parse_args] returns no argument exactly for options that
    ask for nothing; it returns at most eight arguments, and [--fast]
    is the first of them exactly when [fast] is given as [True]. *)
Theorem parse_args_shape (options : OCROptions.t) :
  (_parse_args options = arguments []
   <-> OCROptions.get_truthy (OCROptions.fast options) = false
       /\ OCROptions.languages options = None
       /\ OCROptions.get_truthy (OCROptions.correction options) = false
       /\ OCROptions.custom_words options = None
       /\ OCROptions.custom_words_file options = None
       /\ OCROptions.has_custom_words_hyphen options = false
       /\ OCROptions.has_custom_words_file_hyphen options = false)
  /\ (forall args, _parse_args options = arguments args ->
        (List.length args <= 8)%nat
        /\ (hd_error args = Some "--fast"%string
            <-> OCROptions.get_truthy (OCROptions.fast options) = true)).
Proof.
  options_cases options; repeat split; intros;
    repeat match goal with
           | H : arguments _ = arguments _ |- _ => injection H as <-
           end;
    options_facts; simpl; lia.
Qed.

(** ** Slices with a step *)

Lemma Subseq_nil_l {A : Type} (l : list A) : Subseq [] l.
Proof. induction l; constructor; assumption. Qed.

Lemma Subseq_trans {A : Type} (a b c : list A) :
  Subseq a b -> Subseq b c -> Subseq a c.
Proof.
  intros Hab Hbc. revert a Hab.
  induction Hbc as [|x b c Hbc IH|x b c Hbc IH]; intros a Hab.
  - assumption.
  - inversion Hab; subst; constructor; auto.
  - constructor. auto.
Qed.

Lemma Subseq_skipn {A : Type} (n : nat) (l : list A) : Subseq (skipn n l) l.
Proof.
  revert l. induction n as [|n IH]; intros [|a l]; simpl;
    try apply Subseq_refl. constructor. apply IH.
Qed.

Lemma picks_subseq {A : Type} (l : list A) (t s n : nat) :
  (0 < t)%nat ->
  Subseq
    (flat_map (fun k => match nth_error l (s + k * t) with
                        | Some a => [a]
                        | None => []
                        end) (seq 0 n))
    (skipn s l).
Proof.
  intros Ht. revert s. induction n as [|n IH]; intros s; [apply Subseq_nil_l | ].
  rewrite <- cons_seq, <- seq_shift. cbn [flat_map].
  rewrite flat_map_concat_map, map_map, <- flat_map_concat_map.
  rewrite Nat.add_0_r.
  assert (Subseq
            (flat_map (fun k => match nth_error l (s + S k * t) with
                                | Some a => [a]
                                | None => []
                                end) (seq 0 n))
            (skipn (s + t) l)) as H.
  { rewrite (flat_map_ext _
               (fun k => match nth_error l (s + t + k * t) with
                         | Some a => [a]
                         | None => []
                         end)); [apply IH | ].
    intros k. replace (s + S k * t)%nat with (s + t + k * t)%nat by lia.
    reflexivity. }
  destruct (nth_error l s) as [a|] eqn:E.
  - rewrite (skipn_nth_error l s a E). cbn [app]. constructor.
    apply (Subseq_trans _ _ _ H).
    replace (s + t)%nat with ((t - 1) + S s)%nat by lia.
    rewrite <- skipn_skipn. apply Subseq_skipn.
  - cbn [app]. apply (Subseq_trans _ _ _ H).
    rewrite Nat.add_comm, <- skipn_skipn. apply Subseq_skipn.
Qed.

Lemma rev_picks {A : Type} (g : nat -> list A) (n : nat) :
  (forall k, (List.length (g k) <= 1)%nat) ->
  rev (flat_map g (seq 0 n)) = flat_map (fun j => g (n - 1 - j)%nat) (seq 0 n).
Proof.
  intros Hg. induction n as [|n IH]; [reflexivity | ].
  rewrite seq_S at 1. rewrite flat_map_app, rev_app_distr. simpl.
  rewrite app_nil_r, IH.
  assert (rev (g n) = g n) as ->.
  { specialize (Hg n). destruct (g n) as [|a [|b l]]; simpl in *;
      try reflexivity. lia. }
  f_equal; [f_equal; lia | ]. rewrite <- seq_shift.
  rewrite (flat_map_concat_map _ (map S _)), map_map, <- flat_map_concat_map.
  apply flat_map_ext. intros k. f_equal. lia.
Qed.

Lemma slice_indices_bounds (start stop step : option Z) (len s e st : Z) :
  0 <= len ->
  slice_indices start stop step len = Ok (s, e, st) ->
  st = match step with None => 1 | Some v => v end
  /\ st <> 0
  /\ (0 < st -> 0 <= s <= len /\ 0 <= e <= len)
  /\ (st < 0 -> -1 <= s <= len - 1 /\ -1 <= e <= len - 1).
Proof.
  intros Hlen. unfold slice_indices.
  set (v := match step with None => 1 | Some v => v end).
  destruct (Z.eqb_spec v 0) as [E|E]; [discriminate | ].
  intros [= <- <- <-]. split; [reflexivity | split; [exact E | ]].
  destruct (Z.ltb_spec v 0); split; intros Hv; try lia;
    destruct start as [a|], stop as [b|];
    repeat match goal with
           | |- context [?x <? 0] => destruct (Z.ltb_spec x 0)
           end; lia.
Qed.

Lemma flat_map_ext_seq {A : Type} (f g : nat -> list A) (n : nat) :
  (forall k, (k < n)%nat -> f k = g k) ->
  flat_map f (seq 0 n) = flat_map g (seq 0 n).
Proof.
  intros H. rewrite !flat_map_concat_map. f_equal.
  apply map_ext_in. intros k Hk. apply in_seq in Hk. apply H. lia.
Qed.

Lemma list_getslice_cases {A : Type} (l : list A) (lo hi step : option Z) :
  match list_getslice l lo hi step with
  | Raise e => e = ValueError /\ step = Some 0
  | Ok d =>
      step <> Some 0
      /\ Subseq (if match step with Some st => st <? 0 | None => false end
                 then rev d else d) l
  end.
Proof.
  unfold list_getslice.
  destruct (slice_indices lo hi step (Z.of_nat (List.length l)))
    as [[[s e] st]|err] eqn:E; simpl.
  - apply slice_indices_bounds in E as (Hst & Hnz & Hpos & Hneg); [ | lia].
    split; [destruct step as [v|]; [intros [= ->]; lia | discriminate] | ].
    set (n := Z.to_nat (slice_length s e st)).
    assert ((match step with Some v => v <? 0 | None => false end)
            = (st <? 0)) as ->
        by (rewrite Hst; now destruct step).
    destruct (Z.ltb_spec st 0) as [Hlt|Hge].
    + (* a negative step: the records come out from the end *)
      destruct (Hneg Hlt) as [Hs He].
      rewrite rev_picks
        by (intros k; destruct (nth_error l _); simpl; lia).
      unfold slice_length in n.
      destruct (Z.ltb_spec st 0) as [_|]; [ | lia].
      destruct (Z.ltb_spec e s) as [Hes|Hes]; [ | apply Subseq_nil_l].
      set (t := - st) in *.
      pose proof (Z.mul_div_le (s - e - 1) t ltac:(lia)) as Hdiv.
      pose proof (Z.div_pos (s - e - 1) t ltac:(lia) ltac:(lia)) as Hq.
      set (q := (s - e - 1) / t) in *.
      assert (n = S (Z.to_nat q)) as Hn by (unfold n; lia).
      rewrite (flat_map_ext_seq _
                 (fun j => match nth_error l
                                   (Z.to_nat (s - q * t) + j * Z.to_nat t) with
                           | Some a => [a]
                           | None => []
                           end)).
      * apply (Subseq_trans _ (skipn (Z.to_nat (s - q * t)) l));
          [apply picks_subseq; lia | apply Subseq_skipn].
      * intros j Hj.
        replace (Z.to_nat (s + Z.of_nat (n - 1 - j) * st))
          with (Z.to_nat (s - q * t) + j * Z.to_nat t)%nat; [reflexivity | ].
        assert (Z.of_nat (n - 1 - j) = q - Z.of_nat j) as -> by lia.
        unfold t. nia.
    + (* a positive step *)
      destruct (Hpos ltac:(lia)) as [Hs He].
      rewrite (flat_map_ext _
                 (fun k => match nth_error l
                                   (Z.to_nat s + k * Z.to_nat st) with
                           | Some a => [a]
                           | None => []
                           end)).
      * apply (Subseq_trans _ (skipn (Z.to_nat s) l));
          [apply picks_subseq; lia | apply Subseq_skipn].
      * intros k.
        replace (Z.to_nat (s + Z.of_nat k * st))
          with (Z.to_nat s + k * Z.to_nat st)%nat by nia.
        reflexivity.
  - unfold slice_indices in E.
    destruct (Z.eqb_spec (match step with None => 1 | Some v => v end) 0)
      as [H|H]; [ | discriminate].
    injection E as <-. split; [reflexivity | ].
    destruct step as [v|]; [now subst | discriminate].
Qed.

(** X19.  [self[lo:hi:step]] raises [ValueError] exactly for the step
    0.  For every other step it returns a collection built from
    records of [self]: in their order for a positive step, in the
    reverse order for a negative step.  [self[:]] is built from all
    the records. *)
Theorem slices_with_step (self : OCRResults.t) (lo hi step : option Z) :
  (OCRResults.__getitem__ self (OCRResults.a_slice lo hi step)
   = Raise ValueError <-> step = Some 0)
  /\ (step <> Some 0 ->
      exists d,
        OCRResults.__getitem__ self (OCRResults.a_slice lo hi step)
        = Ok (OCRResults.several (OCRResults.__init__ d))
        /\ Subseq
             (if match step with Some st => st <? 0 | None => false end
              then rev d else d)
             (OCRResults.data self))
  /\ OCRResults.__getitem__ self (OCRResults.a_slice None None None)
     = Ok (OCRResults.several (OCRResults.__init__ (OCRResults.data self))).
Proof.
  unfold OCRResults.__getitem__.
  pose proof (list_getslice_cases (OCRResults.data self) lo hi step) as H.
  split; [ | split].
  - destruct (list_getslice _ _ _ _) as [d|e]; simpl.
    + split; [discriminate | ]. intros E. now destruct H as [H _].
    + destruct H as [-> H]. split; auto.
  - intros Hstep. destruct (list_getslice _ _ _ _) as [d|e]; simpl.
    + exists d. split; [reflexivity | apply H].
    + destruct H as [_ H]. contradiction.
  - rewrite list_getslice_plain. simpl.
    rewrite Z.sub_0_r, Nat2Z.id, firstn_all. reflexivity.
Qed.

(** X20.  The corners agree with one another and with [diagonal], and
    [diagonal] determines the box: two boxes of the same diagonal are
    the same box. *)
Theorem diagonal_determines_box (b b' : BoundingBox.t) :
  BoundingBox.diagonal b
  = (fst (BoundingBox.top_left b), snd (BoundingBox.top_left b),
     fst (BoundingBox.bottom_right b), snd (BoundingBox.bottom_right b))
  /\ BoundingBox.top_right b
     = (fst (BoundingBox.bottom_right b), snd (BoundingBox.top_left b))
  /\ BoundingBox.bottom_left b
     = (fst (BoundingBox.top_left b), snd (BoundingBox.bottom_right b))
  /\ (BoundingBox.diagonal b = BoundingBox.diagonal b' -> b = b').
Proof.
  repeat split. destruct b as [x y w h], b' as [x' y' w' h'].
  unfold BoundingBox.diagonal. simpl. intros [= -> -> Hw Hh].
  f_equal; lia.
Qed.

Section SearchAfterFilter.
Variable str_lower : string -> string.
Variables (query : string) (threshold : float) (lowercase : bool).
Variable score_func : string -> string -> float.

Lemma search_of_filtered (l : list OCRResultDict.t)
  (func : OCRResultDict.t -> bool) :
  (forall d, In d l -> is_nan (OCRResultDict.confidence d) = false) ->
  OCRResults.search str_lower (OCRResults.__init__ (List.filter func l))
    query threshold lowercase score_func
  = OCRResults.__init__
      (List.filter func
         (OCRResults.data
            (OCRResults.search str_lower (OCRResults.__init__ l) query
               threshold lowercase score_func))).
Proof.
  intros Hconf. unfold OCRResults.search. f_equal.
  rewrite !_search_and_score_eq. cbn [OCRResults.data OCRResults.__init__].
  rewrite filter_of_map.
  rewrite <- (sorted_filter tuple_lt OCRResults.sort_key
                (fun p => key_ok (OCRResults.sort_key p))
                good_asym good_trans)
    by (apply (scored_good str_lower query lowercase score_func threshold l
                 Hconf)).
  f_equal. f_equal. rewrite filter_of_map. f_equal. cbn [snd].
  apply filter_comm.
Qed.

End SearchAfterFilter.

(** X21.  A filter may be applied before or after a search: where every
    confidence is a number, searching the output of [filter],
    [minimum_confidence] or [within] gives the collection that the same
    filter returns from the output of the search. *)
Theorem search_commutes_with_filters (str_lower : string -> string)
  (self : OCRResults.t) (query : string) (threshold : float)
  (lowercase : bool) (score_func : string -> string -> float) :
  (forall d, In d (OCRResults.data self) ->
             is_nan (OCRResultDict.confidence d) = false) ->
  (forall func,
     OCRResults.search str_lower (OCRResults.filter self func) query
       threshold lowercase score_func
     = OCRResults.filter
         (OCRResults.search str_lower self query threshold lowercase
            score_func) func)
  /\ (forall t,
        OCRResults.search str_lower (OCRResults.minimum_confidence self t)
          query threshold lowercase score_func
        = OCRResults.minimum_confidence
            (OCRResults.search str_lower self query threshold lowercase
               score_func) t)
  /\ (forall x y width height,
        OCRResults.search str_lower
          (OCRResults.within self x y width height) query threshold
          lowercase score_func
        = OCRResults.within
            (OCRResults.search str_lower self query threshold lowercase
               score_func) x y width height).
Proof.
  intros Hconf.
  assert (forall func,
            OCRResults.search str_lower
              (OCRResults.__init__ (List.filter func (OCRResults.data self)))
              query threshold lowercase score_func
            = OCRResults.__init__
                (List.filter func
                   (OCRResults.data
                      (OCRResults.search str_lower self query threshold
                         lowercase score_func)))) as H.
  { intros func.
    rewrite (search_of_filtered str_lower query threshold lowercase score_func
               (OCRResults.data self) func Hconf).
    reflexivity. }
  split; [ | split].
  - intros func. unfold OCRResults.filter.
    rewrite !(filter_ext (fun item => func item) func) by reflexivity.
    apply H.
  - intros t. apply H.
  - intros x y width height. apply H.
Qed.


(** * The further properties at concrete inputs *)

Example parse_args_all :
  _parse_args
    (OCROptions.mk (Some true) (Some ["en-US"; "fr-FR"]%string) (Some false)
       (Some ["Rocq"]%string) (Some "words.txt"%string) false true)
  = arguments
      ["--fast"; "--languages"; "en-US,fr-FR"; "--custom-words"; "Rocq";
       "--custom-words-file"; "words.txt"]%string.
Proof. reflexivity. Qed.

Example parse_args_hyphen_only :
  _parse_args (OCROptions.mk None None None None None true false)
  = KeyError "custom_words".
Proof. reflexivity. Qed.

Example parse_args_no_language :
  _parse_args (OCROptions.mk None (Some []) None None None false false)
  = arguments ["--languages"; ""]%string.
Proof. reflexivity. Qed.

Example cats_every_second :
  OCRResults.__getitem__ cats (OCRResults.a_slice None None (Some 2))
  = Ok (OCRResults.several
          (OCRResults.__init__
             [record "cat" f_half 50 0 10 10; record "bat" f_half 0 0 10 10])).
Proof. reflexivity. Qed.

Lemma cats_numbers :
  forall d, In d (OCRResults.data cats) ->
            is_nan (OCRResultDict.confidence d) = false.
Proof.
  intros d Hd. simpl in Hd.
  destruct Hd as [<- | [<- | [<- | []]]]; reflexivity.
Defined.

Lemma center_inside_witness :
  0 <= BoundingBox.width (OCRResult.bounding_box hello)
  /\ 0 <= BoundingBox.height (OCRResult.bounding_box hello)
  /\ BoundingBox.x (OCRResult.bounding_box hello)
     <= fst (BoundingBox.center (OCRResult.bounding_box hello))
     <= BoundingBox.x (OCRResult.bounding_box hello)
        + BoundingBox.width (OCRResult.bounding_box hello).
Proof.
  assert (0 <= BoundingBox.width (OCRResult.bounding_box hello)) as Hw
      by (simpl; lia).
  assert (0 <= BoundingBox.height (OCRResult.bounding_box hello)) as Hh
      by (simpl; lia).
  split; [exact Hw | split; [exact Hh | ]].
  exact (proj1 (center_inside (OCRResult.bounding_box hello) Hw Hh)).
Defined.

Lemma filters_select_items_witness :
  in_step cats
  /\ selects cats (OCRResults.minimum_confidence cats f_one).
Proof.
  assert (in_step cats) as H by reflexivity.
  split; [exact H | ].
  exact (proj1 (filters_select_items lower_ascii re_match_literal cats H)
           f_one).
Defined.

Lemma minimum_confidence_absorbs_witness :
  float_le f_half f_one = true
  /\ OCRResults.minimum_confidence
       (OCRResults.minimum_confidence cats f_half) f_one
     = OCRResults.minimum_confidence cats f_one.
Proof.
  split; [reflexivity | ].
  exact (proj1 (minimum_confidence_absorbs cats f_half f_one eq_refl)).
Defined.

Lemma within_nested_witness :
  0 <= 5 /\ 0 <= 0 /\ 5 + 20 <= 0 + 100 /\ 0 + 10 <= 0 + 10
  /\ OCRResults.within (OCRResults.within cats 0 0 100 10) 5 0 20 10
     = OCRResults.within cats 5 0 20 10.
Proof.
  repeat (split; [lia | ]).
  apply (within_nested cats 5 0 20 10 0 0 100 10); lia.
Defined.

Lemma search_ties_keep_order_witness :
  (forall d, In d (OCRResults.data cats) ->
             is_nan (OCRResultDict.confidence d) = false)
  /\ key_ok (OCRResults.sort_key (f_one, record "cat" f_half 10 0 10 10))
  /\ List.filter (ties (f_one, record "cat" f_half 10 0 10 10))
       (OCRResults._search_and_score lower_ascii cats "cat" f_zero false
          score_equal)
     = [(f_one, record "cat" f_half 10 0 10 10)].
Proof.
  assert (key_ok (OCRResults.sort_key (f_one, record "cat" f_half 10 0 10 10)))
    as Hk by (split; reflexivity).
  split; [exact cats_numbers | split; [exact Hk | ]].
  rewrite (search_ties_keep_order lower_ascii cats "cat" f_zero false
             score_equal _ cats_numbers Hk).
  reflexivity.
Defined.

Lemma search_idempotent_witness :
  (forall d, In d (OCRResults.data cats) ->
             is_nan (OCRResultDict.confidence d) = false)
  /\ OCRResults.search lower_ascii
       (OCRResults.search lower_ascii cats "cat" f_zero false score_equal)
       "cat" f_zero false score_equal
     = OCRResults.search lower_ascii cats "cat" f_zero false score_equal.
Proof.
  split; [exact cats_numbers | ].
  exact (proj1 (search_idempotent lower_ascii cats "cat" f_zero false
                  score_equal cats_numbers)).
Defined.

Lemma search_threshold_refines_witness :
  float_le f_zero f_one = true
  /\ (forall d, In d (OCRResults.data cats) ->
                is_nan (OCRResultDict.confidence d) = false)
  /\ OCRResults.search_and_score lower_ascii cats "cat" f_one false
       score_equal
     = List.filter (fun p => float_ge (fst p) f_one)
         (OCRResults.search_and_score lower_ascii cats "cat" f_zero false
            score_equal).
Proof.
  split; [reflexivity | split; [exact cats_numbers | ]].
  exact (proj1 (search_threshold_refines lower_ascii cats "cat" f_zero f_one
                  false score_equal eq_refl cats_numbers)).
Defined.

Lemma search_commutes_with_filters_witness :
  (forall d, In d (OCRResults.data cats) ->
             is_nan (OCRResultDict.confidence d) = false)
  /\ OCRResults.search lower_ascii (OCRResults.within cats 0 0 30 10) "cat"
       f_zero false score_equal
     = OCRResults.within
         (OCRResults.search lower_ascii cats "cat" f_zero false score_equal)
         0 0 30 10.
Proof.
  split; [exact cats_numbers | ].
  exact (proj2 (proj2 (search_commutes_with_filters lower_ascii cats "cat"
                         f_zero false score_equal cats_numbers))
           0 0 30 10).
Defined.
